(** * wacryptolib.escrow: key storage and escrow API

    Shallow embedding of [src/wacryptolib/escrow.py].

    Conventions.
    - Python [bytes] are lists of [Byte.byte]; Python [str] values (key type
      and algorithm names, exception messages) are Rocq strings, the UTF-8
      form of the text.  [str.upper] is ASCII upper-casing on ASCII text;
      on text with other characters it is the interpreter's Unicode mapping,
      an operation of the backend the API runs on.
    - A keychain uid ([uuid.UUID]; the tests also pass plain [str]) is
      identified with its [str()] form, which is what the code formats into
      its error message.
    - A Python call either returns or raises, and mutations made before a
      raise persist: a call is a function [St -> result A * St].
    - The process-wide random source read by key generation, OAEP and PSS is
      an explicit component of the state. *)

From Stdlib.Strings Require Import String Ascii Byte.
From Stdlib Require Import List NArith Lia.
From stdpp Require Import base option list strings gmap.

Local Open Scope string_scope.

(** ** Python values *)

Definition bytes := list byte.

(** [b"..."] literals. *)
Definition b (s : string) : bytes := list_byte_of_string s.

(** Truthiness of a value that is [bytes] or [None]. *)
Definition truthy (v : option bytes) : bool :=
  match v with
  | Some (_ :: _) => true
  | Some [] => false
  | None => false
  end.

(** [str.upper] on ASCII text. *)
Definition is_ascii (s : string) : bool :=
  forallb (λ c, (nat_of_ascii c <? 128)%nat) (list_ascii_of_string s).

Definition upper_ascii (c : ascii) : ascii :=
  let n := nat_of_ascii c in
  if (97 <=? n)%nat && (n <=? 122)%nat then ascii_of_nat (n - 32) else c.

Fixpoint upper (s : string) : string :=
  match s with
  | EmptyString => EmptyString
  | String c s' => String (upper_ascii c) (upper s')
  end.

(** ** Exceptions and the call monad *)

Inductive exn :=
| AssertionError
| RuntimeError (msg : string)
| ValueError (msg : string)
| TypeError (msg : string).

Inductive result (A : Type) :=
| Ok (a : A)
| Raise (e : exn).
Arguments Ok {A} a.
Arguments Raise {A} e.

Definition is_ok {A} (r : result A) : bool :=
  match r with Ok _ => true | Raise _ => false end.

Definition call (St A : Type) := St → result A * St.

Definition call_ret {St A} (a : A) : call St A := λ s, (Ok a, s).

Definition call_bind {St A B} (f : A → call St B) (m : call St A) : call St B :=
  λ s, match m s with
       | (Ok a, s') => f a s'
       | (Raise e, s') => (Raise e, s')
       end.

#[global] Instance call_mret {St} : MRet (call St) := λ A, call_ret.
#[global] Instance call_mbind {St} : MBind (call St) := λ A B, call_bind.

Definition raise {St A} (e : exn) : call St A := λ s, (Raise e, s).

(** [assert cond] *)
Definition py_assert {St} (cond : bool) : call St unit :=
  if cond then mret tt else raise AssertionError.

(** A computation that cannot touch the state. *)
Definition lift_result {St A} (r : result A) : call St A := λ s, (r, s).

(** ** Key pairs and the storage interface *)

(** [dict(public_key=..., private_key=...)]: both PEM bytestrings. *)
Record Keypair := { public_key : bytes; private_key : bytes }.

(** Truthiness of [dict.get(...)]: [None] is falsy, and the stored dict
    always has its two entries, so it is truthy. *)
Definition dict_truthy (keypair : option Keypair) : bool :=
  match keypair with Some _ => true | None => false end.

Module KeyStorageBase.
(** The abstract storage interface.  [set_keys] mutates the storage and
    may raise; the two getters fetch and return [None] if unexisting. *)
Class t (S : Type) := {
  set_keys : string → string → bytes → bytes → call S unit;
  get_public_key : string → string → S → option bytes;
  get_private_key : string → string → S → option bytes;
}.
End KeyStorageBase.

Module DummyKeyStorage.
Record t := { _cached_keypairs : gmap (string * string) Keypair }.

Definition __init__ : t := {| _cached_keypairs := ∅ |}.

Definition _get_keypair (keychain_uid key_type : string) (self : t)
  : option Keypair :=
  _cached_keypairs self !! (keychain_uid, key_type).

Definition already_existing (keychain_uid key_type : string) : exn :=
  RuntimeError
    ("Can't save already existing key " ++ keychain_uid ++ "/" ++ key_type).

Definition set_keys (keychain_uid key_type : string)
    (public_key private_key : bytes) : call t unit :=
  λ self,
    if dict_truthy (_get_keypair keychain_uid key_type self)
    then (Raise (already_existing keychain_uid key_type), self)
    else (Ok tt,
          {| _cached_keypairs :=
               <[(keychain_uid, key_type) :=
                   {| public_key := public_key; private_key := private_key |}]>
                 (_cached_keypairs self) |}).

Definition get_public_key (keychain_uid key_type : string) (self : t)
  : option bytes :=
  let keypair := _get_keypair keychain_uid key_type self in
  if dict_truthy keypair then public_key <$> keypair else None.

Definition get_private_key (keychain_uid key_type : string) (self : t)
  : option bytes :=
  let keypair := _get_keypair keychain_uid key_type self in
  if dict_truthy keypair then private_key <$> keypair else None.

#[global] Instance storage : KeyStorageBase.t t := {|
  KeyStorageBase.set_keys := set_keys;
  KeyStorageBase.get_public_key := get_public_key;
  KeyStorageBase.get_private_key := get_private_key;
|}.
End DummyKeyStorage.

(** ** The cryptographic backend

    [wacryptolib.key_generation], [wacryptolib.encryption] and
    [wacryptolib.signature] wrap an RSA library.  The library's primitives
    and the two key-handling functions that [escrow.py] imports from
    [key_generation] are the operations of a backend; randomised operations
    read and advance the random source (an [N]).  The backend also carries
    the interpreter's upper-casing of non-ASCII text. *)

Class Backend := {
  (** a parsed key object *)
  Key : Type;
  (** [generate_asymmetric_keypair(key_type=..., serialize=True)] *)
  generate_asymmetric_keypair : string → call N Keypair;
  (** [load_asymmetric_key_from_pem_bytestring(key_pem=..., key_type=...)];
      [key_pem] is whatever the storage returned, possibly [None] *)
  load_asymmetric_key_from_pem_bytestring : option bytes → string → result Key;
  (** size of the key's modulus in bytes: the length of one RSA block *)
  size_in_bytes : Key → nat;
  (** OAEP on one block *)
  oaep_encrypt : Key → bytes → call N bytes;
  oaep_decrypt : Key → bytes → result bytes;
  (** signature primitives, by algorithm name *)
  sign : string → Key → bytes → call N bytes;
  verify : string → Key → bytes → bytes → bool;
  (** [str.upper] of the interpreter on text that has non-ASCII characters
      (its Unicode mapping sends some of them to ASCII letters) *)
  unicode_upper : string → string;
}.

(** [s.upper()] *)
Definition str_upper {B : Backend} (s : string) : string :=
  if is_ascii s then upper s else unicode_upper s.

(** The dict exchanged with the OAEP functions: the tests read and extend
    its ["digest_list"] entry, a list of encrypted chunks. *)
Record Cipherdict := { digest_list : list bytes }.

(** The signature structure: the tests read and extend its ["digest"]
    entry. *)
Record Signature := { digest : bytes }.

(** [cipherdict["digest_list"].append(chunk)] *)
Definition digest_list_append (cipherdict : Cipherdict) (chunk : bytes)
  : Cipherdict :=
  {| digest_list := (digest_list cipherdict ++ [chunk])%list |}.

(** [signature["digest"] += suffix] *)
Definition digest_extend (signature : Signature) (suffix : bytes) : Signature :=
  {| digest := (digest signature ++ suffix)%list |}.

Definition incorrect_length : exn := ValueError "Ciphertext with incorrect length".
Definition incorrect_signature : exn := ValueError "Incorrect signature".

Section Wrappers.
Context {B : Backend}.

(** Modelled from the spec: [wacryptolib.encryption._decrypt_via_rsa_oaep]
    is missing from the sources.  Each chunk of the digest list is one
    ciphertext; a chunk whose length is not the block size of the key fails
    with the length-mismatch error (spec 8, and the message the test
    expects), otherwise the block is decrypted, which fails on a padding
    mismatch (spec 4.2).  The plaintext is returned only if every chunk
    decrypts. *)
Definition decrypt_chunk (key : Key) (chunk : bytes) : result bytes :=
  if decide (length chunk = size_in_bytes key)
  then oaep_decrypt key chunk
  else Raise incorrect_length.

Fixpoint decrypt_chunks (key : Key) (chunks : list bytes) : result bytes :=
  match chunks with
  | [] => Ok []
  | chunk :: rest =>
      match decrypt_chunk key chunk with
      | Raise e => Raise e
      | Ok plain =>
          match decrypt_chunks key rest with
          | Raise e => Raise e
          | Ok plains => Ok (plain ++ plains)%list
          end
      end
  end.

Definition _decrypt_via_rsa_oaep (cipherdict : Cipherdict) (key : Key)
  : result bytes :=
  decrypt_chunks key (digest_list cipherdict).

(** Modelled from the spec: [wacryptolib.encryption._encrypt_via_rsa_oaep]
    is missing from the sources.  A plaintext small enough for one block is
    wrapped asymmetrically under the public key (spec 4.4 step 3) and
    returned as the single chunk of a cipherdict. *)
Definition _encrypt_via_rsa_oaep (plaintext : bytes) (key : Key)
  : call N Cipherdict :=
  chunk ← oaep_encrypt key plaintext;
  mret {| digest_list := [chunk] |}.

(** Modelled from the spec: [wacryptolib.signature.sign_message] is missing
    from the sources.  It produces a signature structure over the message
    with the private key (spec 4.2). *)
Definition sign_message (message : bytes) (signature_algo : string) (key : Key)
  : call N Signature :=
  d ← sign signature_algo key message;
  mret {| digest := d |}.

(** Modelled from the spec: [wacryptolib.signature.verify_message_signature]
    is missing from the sources.  Verification needs only the public key and
    fails with the signature-invalid error (spec 3 and 7; the message is the
    one the test expects). *)
Definition verify_message_signature (message : bytes) (signature : Signature)
    (key : Key) (signature_algo : string) : result unit :=
  if verify signature_algo key message (digest signature)
  then Ok tt
  else Raise incorrect_signature.

End Wrappers.

(** ** The escrow API *)

(** What the API runs against: its [key_storage] attribute and the random
    source. *)
Record world (S : Type) := World { key_storage : S; entropy : N }.
Arguments World {S} _ _.
Arguments key_storage {S} _.
Arguments entropy {S} _.

Definition storage_read {S A} (f : S → A) : call (world S) A :=
  λ w, (Ok (f (key_storage w)), w).

Definition storage_call {S A} (f : call S A) : call (world S) A :=
  λ w, let (r, s) := f (key_storage w) in (r, World s (entropy w)).

Definition random_call {S A} (f : call N A) : call (world S) A :=
  λ w, let (r, e) := f (entropy w) in (r, World (key_storage w) e).

Module EscrowApi.
Section Api.
Context {S : Type} {KS : KeyStorageBase.t S} {B : Backend}.

Definition _ensure_keypair_exists (keychain_uid key_type : string)
  : call (world S) unit :=
  has_public_key ←
    storage_read (KeyStorageBase.get_public_key keychain_uid key_type);
  if negb (truthy has_public_key) then
    keypair ← random_call (generate_asymmetric_keypair key_type);
    storage_call
      (KeyStorageBase.set_keys keychain_uid key_type
         (public_key keypair) (private_key keypair))
  else mret tt.

Definition get_public_key (keychain_uid key_type : string)
  : call (world S) (option bytes) :=
  _ensure_keypair_exists keychain_uid key_type;;
  storage_read (KeyStorageBase.get_public_key keychain_uid key_type).

Definition get_message_signature (keychain_uid : string) (message : bytes)
    (key_type signature_algo : string) : call (world S) Signature :=
  _ensure_keypair_exists keychain_uid key_type;;
  private_key_pem ←
    storage_read (KeyStorageBase.get_private_key keychain_uid key_type);
  private_key ←
    lift_result (load_asymmetric_key_from_pem_bytestring private_key_pem key_type);
  signature ← random_call (sign_message message signature_algo private_key);
  mret signature.

Definition decrypt_with_private_key (keychain_uid key_type encryption_algo : string)
    (cipherdict : Cipherdict) : call (world S) bytes :=
  py_assert (String.eqb (str_upper key_type) "RSA");;
  py_assert (String.eqb (str_upper encryption_algo) "RSA_OAEP");;
  _ensure_keypair_exists keychain_uid key_type;;
  private_key_pem ←
    storage_read (KeyStorageBase.get_private_key keychain_uid key_type);
  private_key ←
    lift_result (load_asymmetric_key_from_pem_bytestring private_key_pem key_type);
  secret ← lift_result (_decrypt_via_rsa_oaep cipherdict private_key);
  mret secret.

End Api.
End EscrowApi.

(** ** Call sequences

    A client holds the storage object and the API object that wraps it, and
    may call either; an exception is caught by the client and the next call
    runs in the state the failed call left. *)

Inductive request :=
| KS_set_keys (keychain_uid key_type : string) (public_key private_key : bytes)
| KS_get_public_key (keychain_uid key_type : string)
| KS_get_private_key (keychain_uid key_type : string)
| Api_get_public_key (keychain_uid key_type : string)
| Api_get_message_signature (keychain_uid : string) (message : bytes)
    (key_type signature_algo : string)
| Api_decrypt_with_private_key (keychain_uid key_type encryption_algo : string)
    (cipherdict : Cipherdict).

Section Requests.
Context {B : Backend}.

Definition perform (r : request) (w : world DummyKeyStorage.t)
  : world DummyKeyStorage.t :=
  match r with
  | KS_set_keys u k pub priv =>
      snd (storage_call (DummyKeyStorage.set_keys u k pub priv) w)
  | KS_get_public_key u k =>
      snd (storage_read (DummyKeyStorage.get_public_key u k) w)
  | KS_get_private_key u k =>
      snd (storage_read (DummyKeyStorage.get_private_key u k) w)
  | Api_get_public_key u k => snd (EscrowApi.get_public_key u k w)
  | Api_get_message_signature u m k a =>
      snd (EscrowApi.get_message_signature u m k a w)
  | Api_decrypt_with_private_key u k a cd =>
      snd (EscrowApi.decrypt_with_private_key u k a cd w)
  end.

Definition perform_all (rs : list request) (w : world DummyKeyStorage.t)
  : world DummyKeyStorage.t :=
  fold_left (λ w r, perform r w) rs w.

End Requests.

(** A sequence of [set_keys] calls on a storage, failures caught. *)
Definition set_keys_all (calls : list (string * string * bytes * bytes))
    (self : DummyKeyStorage.t) : DummyKeyStorage.t :=
  fold_left
    (λ s '(u, k, pub, priv), snd (DummyKeyStorage.set_keys u k pub priv s))
    calls self.

(** The first call of a sequence made for the pair [(uid, key_type)]. *)
Definition first_call_for (keychain_uid key_type : string)
    (calls : list (string * string * bytes * bytes)) : option Keypair :=
  match
    List.find (λ '(u, k, _, _), bool_decide ((u, k) = (keychain_uid, key_type)))
      calls
  with
  | Some (_, _, pub, priv) => Some {| public_key := pub; private_key := priv |}
  | None => None
  end.

(** ** What the backend is assumed to provide *)

Section Laws.
Context {B : Backend}.

(** OAEP under a public key is undone by its private key, and a ciphertext
    block has the length of the key. *)
Definition oaep_inverse (pub priv : Key) : Prop :=
  ∀ m r c r',
    oaep_encrypt pub m r = (Ok c, r') →
    length c = size_in_bytes priv ∧ oaep_decrypt priv c = Ok m.

(** What the private key signs, the public key accepts. *)
Definition signature_sound (pub priv : Key) : Prop :=
  ∀ algo m r d r',
    sign algo priv m r = (Ok d, r') → verify algo pub m d = true.

(** A serialised key pair whose two halves parse and belong together. *)
Definition good_keypair (key_type : string) (kp : Keypair) : Prop :=
  public_key kp ≠ [] ∧
  ∃ pub priv,
    load_asymmetric_key_from_pem_bytestring (Some (public_key kp)) key_type
      = Ok pub ∧
    load_asymmetric_key_from_pem_bytestring (Some (private_key kp)) key_type
      = Ok priv ∧
    oaep_inverse pub priv ∧
    signature_sound pub priv.

Class BackendLaws : Prop := {
  (** key generation returns a non-empty PEM pair that belongs together *)
  keygen_good :
    ∀ key_type r kp r',
      generate_asymmetric_keypair key_type r = (Ok kp, r') →
      good_keypair key_type kp;
  (** a signature accepted under a key has the length of that key *)
  signature_length :
    ∀ algo key m d,
      verify algo key m d = true → length d = size_in_bytes key;
}.

End Laws.
Arguments BackendLaws : clear implicits.

(** ** A small backend to run the definitions on

    Keys are one byte long and a block is four bytes: the key's byte, the
    plaintext length, and two bytes of padded plaintext.  It is not a
    cipher; it only gives the definitions something to compute with, on
    ASCII names (its upper-casing leaves other text as it is). *)

Module Toy.

Record key := { ident : byte; is_private : bool }.

Definition byte_of (n : N) : byte := default x00 (Byte.of_N (n mod 256)).

Definition generate (key_type : string) : call N Keypair :=
  λ r,
    if String.eqb (upper key_type) "RSA"
    then (Ok {| public_key := [x50; byte_of r]; private_key := [x53; byte_of r] |},
          N.succ r)
    else (Raise (ValueError "Unknown asymmetric key type"), r).

Definition load (key_pem : option bytes) (key_type : string) : result key :=
  match key_pem with
  | Some [x50; i] => Ok {| ident := i; is_private := false |}
  | Some [x53; i] => Ok {| ident := i; is_private := true |}
  | _ => Raise (ValueError "RSA key format is not supported")
  end.

Definition encrypt (k : key) (m : bytes) : call N bytes :=
  λ r,
    match m with
    | [] => (Ok [ident k; x00; x00; x00], N.succ r)
    | [a] => (Ok [ident k; x01; a; x00], N.succ r)
    | [a; c] => (Ok [ident k; x02; a; c], N.succ r)
    | _ => (Raise (ValueError "Plaintext is too long."), r)
    end.

Definition decrypt (k : key) (c : bytes) : result bytes :=
  match c with
  | [i; l; a; c'] =>
      if negb (Byte.eqb i (ident k)) then Raise (ValueError "Incorrect decryption.")
      else if Byte.eqb l x00 then Ok []
      else if Byte.eqb l x01 then Ok [a]
      else if Byte.eqb l x02 then Ok [a; c']
      else Raise (ValueError "Incorrect decryption.")
  | _ => Raise (ValueError "Incorrect decryption.")
  end.

Definition tag (m : bytes) : byte := List.hd x00 m.

Definition make_signature (algo : string) (k : key) (m : bytes) : call N bytes :=
  λ r, (Ok [ident k; tag m; x00; x00], N.succ r).

Definition check_signature (algo : string) (k : key) (m d : bytes) : bool :=
  match d with
  | [i; t; p; q] =>
      Byte.eqb i (ident k) && Byte.eqb t (tag m) && Byte.eqb p x00 && Byte.eqb q x00
  | _ => false
  end.

Definition backend : Backend := {|
  Key := key;
  generate_asymmetric_keypair := generate;
  load_asymmetric_key_from_pem_bytestring := load;
  size_in_bytes := λ _, 4%nat;
  oaep_encrypt := encrypt;
  oaep_decrypt := decrypt;
  sign := make_signature;
  verify := check_signature;
  unicode_upper := λ s, s;
|}.

End Toy.

(** ** Which key pair a request is about, and API-only histories *)

Definition request_pair (r : request) : string * string :=
  match r with
  | KS_set_keys u k _ _ => (u, k)
  | KS_get_public_key u k => (u, k)
  | KS_get_private_key u k => (u, k)
  | Api_get_public_key u k => (u, k)
  | Api_get_message_signature u _ k _ => (u, k)
  | Api_decrypt_with_private_key u k _ _ => (u, k)
  end.

(** The requests a client makes who holds the API object only, not the
    storage behind it. *)
Definition is_api_request (r : request) : bool :=
  match r with
  | Api_get_public_key _ _ => true
  | Api_get_message_signature _ _ _ _ => true
  | Api_decrypt_with_private_key _ _ _ _ => true
  | _ => false
  end.

(** Every stored key pair is a good one for its key type. *)
Definition good_storage {B : Backend} (self : DummyKeyStorage.t) : Prop :=
  ∀ u k kp, DummyKeyStorage._get_keypair u k self = Some kp → good_keypair k kp.

(** * wacryptolib.authentication_device

    Shallow embedding of [src/wacryptolib/authentication_device.py].

    An authentication device is the dict the enumeration functions build;
    it is a record of the documented entries.  ["partition"] is set on
    Linux only, and ["metadata"] is absent until
    [list_available_authentication_devices] or
    [initialize_authentication_device] sets it (to [None] or to a metadata
    dict): absent is the outer [None].  Functions that update the dict they
    are given return the updated record.  Calls to the logger are left out:
    they do not take part in any result. *)

Module AuthenticationDevice.

Record Device (Metadata : Type) := {
  drive_type : string;
  label : string;
  path : string;
  size : N;
  format : string;
  partition : option string;
  is_initialized : bool;
  metadata : option (option Metadata);
}.
Arguments drive_type {Metadata} _.
Arguments label {Metadata} _.
Arguments path {Metadata} _.
Arguments size {Metadata} _.
Arguments format {Metadata} _.
Arguments partition {Metadata} _.
Arguments is_initialized {Metadata} _.
Arguments metadata {Metadata} _.

(** A [pyudev] block device: its device node and its ["removable"]
    attribute. *)
Record udev_device := { device_node : string; removable : string }.

(** A [psutil] mounted partition. *)
Record sdiskpart := { device : string; mountpoint : string; fstype : string }.

(** What the module runs on: the machine (mounted file systems and their
    files) is a state [os]; [pathlib], [pyudev], [psutil] and the functions
    of [wacryptolib.authenticator], which is missing from the sources, are
    operations on it that may raise.  The Windows enumeration goes through
    [wmi] and [win32api] objects and is taken as a whole. *)
Class Platform := {
  os : Type;
  Metadata : Type;
  ExtraMetadata : Type;
  AuthenticatorPath : Type;
  sys_platform : string;
  (** [Path(a).joinpath(b)] *)
  joinpath : string → string → AuthenticatorPath;
  (** [str(PurePath(a).name)] *)
  purepath_name : string → string;
  is_authenticator_initialized : AuthenticatorPath → call os bool;
  initialize_authenticator :
    AuthenticatorPath → string → option ExtraMetadata → call os Metadata;
  load_authenticator_metadata : AuthenticatorPath → call os Metadata;
  (** [context.list_devices(subsystem="block", DEVTYPE="disk")] *)
  list_disks : call os (list udev_device);
  (** [context.list_devices(subsystem="block", DEVTYPE="partition", parent=d)] *)
  list_partitions : udev_device → call os (list udev_device);
  (** [psutil.disk_partitions()] *)
  disk_partitions : call os (list sdiskpart);
  (** [psutil.disk_usage(path).total] *)
  disk_usage_total : string → call os N;
  _list_available_authentication_devices_win32 : call os (list (Device Metadata));
}.

Section Devices.
Context {P : Platform}.

Definition _get_authenticator_path (authentication_device : Device Metadata)
  : AuthenticatorPath :=
  joinpath (path authentication_device) ".key_storage".

Definition is_authentication_device_initialized
    (authentication_device : Device Metadata) : call os bool :=
  let authenticator_path := _get_authenticator_path authentication_device in
  is_authenticator_initialized authenticator_path.

Definition load_authentication_device_metadata
    (authentication_device : Device Metadata) : call os Metadata :=
  let authenticator_path := _get_authenticator_path authentication_device in
  load_authenticator_metadata authenticator_path.

(** [authentication_device["is_initialized"] = True;
     authentication_device["metadata"] = metadata] *)
Definition mark_initialized (authentication_device : Device Metadata)
    (m : Metadata) : Device Metadata :=
  {| drive_type := drive_type authentication_device;
     label := label authentication_device;
     path := path authentication_device;
     size := size authentication_device;
     format := format authentication_device;
     partition := partition authentication_device;
     is_initialized := true;
     metadata := Some (Some m) |}.

(** [authentication_device["metadata"] = metadata] *)
Definition set_metadata (authentication_device : Device Metadata)
    (m : option Metadata) : Device Metadata :=
  {| drive_type := drive_type authentication_device;
     label := label authentication_device;
     path := path authentication_device;
     size := size authentication_device;
     format := format authentication_device;
     partition := partition authentication_device;
     is_initialized := is_initialized authentication_device;
     metadata := Some m |}.

Definition initialize_authentication_device
    (authentication_device : Device Metadata) (user : string)
    (extra_metadata : option ExtraMetadata) : call os (Device Metadata) :=
  py_assert (negb (is_initialized authentication_device));;
  let authenticator_path := _get_authenticator_path authentication_device in
  m ← initialize_authenticator authenticator_path user extra_metadata;
  mret (mark_initialized authentication_device m).

(** The partitions of the removable disks, disk after disk. *)
Fixpoint partitions_of_all (removable_devices : list udev_device)
  : call os (list string) :=
  match removable_devices with
  | [] => mret []
  | removable_device :: rest =>
      devices ← list_partitions removable_device;
      nodes ← partitions_of_all rest;
      mret ((device_node <$> devices) ++ nodes)%list
  end.

(** The loop over the mounted partitions.  The dict of a partition is
    filled entry by entry; the initialisation check reads its ["path"]
    only. *)
Fixpoint linux_devices (removable_devices_partitions : list string)
    (all_existing_partitions : list sdiskpart)
  : call os (list (Device Metadata)) :=
  match all_existing_partitions with
  | [] => mret []
  | p :: rest =>
      if negb (bool_decide (device p ∈ removable_devices_partitions)) then
        linux_devices removable_devices_partitions rest
      else
        total ← disk_usage_total (mountpoint p);
        let authentication_device :=
          {| drive_type := "USBSTOR";
             label := purepath_name (mountpoint p);
             path := mountpoint p;
             size := total;
             format := fstype p;
             partition := Some (device p);
             is_initialized := false;
             metadata := None |} in
        initialized ← is_authentication_device_initialized authentication_device;
        authentication_device_list ←
          linux_devices removable_devices_partitions rest;
        mret ({| drive_type := drive_type authentication_device;
                 label := label authentication_device;
                 path := path authentication_device;
                 size := size authentication_device;
                 format := format authentication_device;
                 partition := partition authentication_device;
                 is_initialized := initialized;
                 metadata := None |} :: authentication_device_list)
  end.

Definition _list_available_authentication_devices_linux
  : call os (list (Device Metadata)) :=
  disks ← list_disks;
  let removable_devices :=
    filter (λ d, removable d = "1") disks in
  removable_devices_partitions ← partitions_of_all removable_devices;
  all_existing_partitions ← disk_partitions;
  linux_devices removable_devices_partitions all_existing_partitions.

(** The loop that attaches the metadata to each listed device. *)
Fixpoint attach_metadata (authentication_devices : list (Device Metadata))
  : call os (list (Device Metadata)) :=
  match authentication_devices with
  | [] => mret []
  | authentication_device :: rest =>
      m ← (if is_initialized authentication_device
           then m ← load_authentication_device_metadata authentication_device;
                mret (Some m)
           else mret None);
      rest' ← attach_metadata rest;
      mret (set_metadata authentication_device m :: rest')
  end.

Definition list_available_authentication_devices
  : call os (list (Device Metadata)) :=
  authentication_devices ←
    (if String.eqb sys_platform "win32"
     then _list_available_authentication_devices_win32
     else _list_available_authentication_devices_linux);
  attach_metadata authentication_devices.

End Devices.

(** A small machine to run the definitions on: the state is the list of
    mount points that carry an initialised authenticator; the metadata under
    ["/media/broken"] never loads. *)
Definition toy_platform : Platform := {|
  os := list string;
  Metadata := string;
  ExtraMetadata := unit;
  AuthenticatorPath := string;
  sys_platform := "linux";
  joinpath := λ a c, a;
  purepath_name := λ a, a;
  is_authenticator_initialized := λ a s, (Ok (bool_decide (a ∈ s)), s);
  initialize_authenticator := λ a user _ s, (Ok user, a :: s);
  load_authenticator_metadata :=
    λ a s, if bool_decide (a ∈ s) && negb (String.eqb a "/media/broken")
           then (Ok a, s)
           else (Raise (ValueError "Abnormal key device metadata"), s);
  list_disks := λ s,
    (Ok [{| device_node := "/dev/sda"; removable := "0" |};
         {| device_node := "/dev/sdb"; removable := "1" |}], s);
  list_partitions := λ d s,
    (Ok [{| device_node := device_node d ++ "1"; removable := "0" |};
         {| device_node := device_node d ++ "2"; removable := "0" |}], s);
  disk_partitions := λ s,
    (Ok [{| device := "/dev/sda1"; mountpoint := "/"; fstype := "ext4" |};
         {| device := "/dev/sdb1"; mountpoint := "/media/key"; fstype := "vfat" |};
         {| device := "/dev/sdb2"; mountpoint := "/media/broken";
            fstype := "vfat" |}],
     s);
  disk_usage_total := λ a s, (Ok 1024%N, s);
  _list_available_authentication_devices_win32 := λ s, (Ok [], s);
|}.

End AuthenticationDevice.

(** * Properties *)

Ltac unfold_call :=
  unfold mbind, mret, call_mbind, call_mret, call_bind, call_ret,
    storage_read, storage_call, random_call, lift_result, py_assert, raise in *.

(** ** The dummy storage *)

Lemma keypair_eta (kp : Keypair) :
  {| public_key := public_key kp; private_key := private_key kp |} = kp.
Proof. by destruct kp. Qed.

Lemma world_eta {S} (w : world S) : World (key_storage w) (entropy w) = w.
Proof. by destruct w. Qed.

Lemma set_keys_absent u k pub priv (self : DummyKeyStorage.t) :
  DummyKeyStorage._get_keypair u k self = None →
  DummyKeyStorage.set_keys u k pub priv self =
    (Ok tt,
     {| DummyKeyStorage._cached_keypairs :=
          <[(u, k) := {| public_key := pub; private_key := priv |}]>
            (DummyKeyStorage._cached_keypairs self) |}).
Proof. intros H. unfold DummyKeyStorage.set_keys. by rewrite H. Qed.

Lemma set_keys_present u k pub priv (self : DummyKeyStorage.t) kp :
  DummyKeyStorage._get_keypair u k self = Some kp →
  DummyKeyStorage.set_keys u k pub priv self =
    (Raise (DummyKeyStorage.already_existing u k), self).
Proof. intros H. unfold DummyKeyStorage.set_keys. by rewrite H. Qed.

Lemma get_public_key_lookup u k (self : DummyKeyStorage.t) :
  DummyKeyStorage.get_public_key u k self =
    public_key <$> DummyKeyStorage._get_keypair u k self.
Proof.
  unfold DummyKeyStorage.get_public_key.
  by destruct (DummyKeyStorage._get_keypair u k self).
Qed.

Lemma get_private_key_lookup u k (self : DummyKeyStorage.t) :
  DummyKeyStorage.get_private_key u k self =
    private_key <$> DummyKeyStorage._get_keypair u k self.
Proof.
  unfold DummyKeyStorage.get_private_key.
  by destruct (DummyKeyStorage._get_keypair u k self).
Qed.

(** [set_keys] never disturbs an entry that is there, whatever it returns. *)
Lemma set_keys_keeps u k pub priv (self : DummyKeyStorage.t) u0 k0 kp :
  DummyKeyStorage._get_keypair u0 k0 self = Some kp →
  DummyKeyStorage._get_keypair u0 k0
    (snd (DummyKeyStorage.set_keys u k pub priv self)) = Some kp.
Proof.
  intros H. destruct (DummyKeyStorage._get_keypair u k self) as [old|] eqn:E.
  - by rewrite (set_keys_present _ _ _ _ _ _ E).
  - rewrite (set_keys_absent _ _ _ _ _ E). unfold DummyKeyStorage._get_keypair in *.
    simpl. rewrite lookup_insert_ne; [done|]. intros [= -> ->]. congruence.
Qed.

(** ** Provisioning *)

Section Provisioning.
Context {B : Backend}.

Local Notation "'store' w" := (key_storage w)
  (at level 10, w at level 9, only parsing).
Local Notation "'lookup' u k w" :=
  (DummyKeyStorage._get_keypair u k (key_storage w))
  (at level 10, u, k, w at level 9, only parsing).

(** The pair is there with a non-empty public key: nothing happens. *)
Lemma ensure_present u k (w : world DummyKeyStorage.t) kp :
  lookup u k w = Some kp →
  public_key kp ≠ [] →
  EscrowApi._ensure_keypair_exists u k w = (Ok tt, w).
Proof.
  intros H Hne. unfold EscrowApi._ensure_keypair_exists. unfold_call. simpl.
  rewrite get_public_key_lookup, H. simpl.
  destruct (public_key kp); [done|]. by simpl.
Qed.

(** The pair is absent: a key pair is generated and stored. *)
Lemma ensure_absent u k (w : world DummyKeyStorage.t) :
  lookup u k w = None →
  EscrowApi._ensure_keypair_exists u k w =
    match generate_asymmetric_keypair k (entropy w) with
    | (Ok kp, e') =>
        (Ok tt,
         World {| DummyKeyStorage._cached_keypairs :=
                    <[(u, k) := kp]> (DummyKeyStorage._cached_keypairs (store w)) |}
               e')
    | (Raise e, e') => (Raise e, World (store w) e')
    end.
Proof.
  intros H. unfold EscrowApi._ensure_keypair_exists. unfold_call. simpl.
  rewrite get_public_key_lookup, H. simpl.
  destruct (generate_asymmetric_keypair k (entropy w)) as [[kp|e] e']; [|done].
  simpl. rewrite (set_keys_absent _ _ _ _ _ H). by rewrite keypair_eta.
Qed.

(** The pair is there with an empty public key: a key pair is generated and
    the storage refuses it. *)
Lemma ensure_empty_public_key u k (w : world DummyKeyStorage.t) kp :
  lookup u k w = Some kp →
  public_key kp = [] →
  EscrowApi._ensure_keypair_exists u k w =
    match generate_asymmetric_keypair k (entropy w) with
    | (Ok _, e') =>
        (Raise (DummyKeyStorage.already_existing u k), World (store w) e')
    | (Raise e, e') => (Raise e, World (store w) e')
    end.
Proof.
  intros H He. unfold EscrowApi._ensure_keypair_exists. unfold_call. simpl.
  rewrite get_public_key_lookup, H. simpl. rewrite He. simpl.
  destruct (generate_asymmetric_keypair k (entropy w)) as [[kp'|e] e']; [|done].
  simpl. by rewrite (set_keys_present _ _ _ _ _ _ H).
Qed.

(** Whatever it returns, provisioning keeps every entry that is there. *)
Lemma ensure_keeps u k (w : world DummyKeyStorage.t) u0 k0 kp :
  lookup u0 k0 w = Some kp →
  lookup u0 k0 (snd (EscrowApi._ensure_keypair_exists u k w)) = Some kp.
Proof.
  intros H. destruct (lookup u k w) as [old|] eqn:E.
  - destruct (public_key old) as [|x l] eqn:Ep.
    + rewrite (ensure_empty_public_key _ _ _ _ E Ep).
      by destruct (generate_asymmetric_keypair k (entropy w)) as [[?|?] ?].
    + rewrite (ensure_present _ _ _ _ E); [done|]. by rewrite Ep.
  - rewrite (ensure_absent _ _ _ E).
    destruct (generate_asymmetric_keypair k (entropy w)) as [[?|?] ?]; [|done].
    simpl. unfold DummyKeyStorage._get_keypair in *. simpl.
    rewrite lookup_insert_ne; [done|]. intros [= -> ->]. congruence.
Qed.

(** When provisioning returns, the pair is there: it was there already with
    a non-empty public key and nothing changed, or it is the pair just
    generated. *)
Lemma ensure_ok_inv u k (w w1 : world DummyKeyStorage.t) :
  EscrowApi._ensure_keypair_exists u k w = (Ok tt, w1) →
  ∃ kp, lookup u k w1 = Some kp ∧
    ((w1 = w ∧ public_key kp ≠ []) ∨
     (lookup u k w = None ∧
      generate_asymmetric_keypair k (entropy w) = (Ok kp, entropy w1) ∧
      store w1 =
        {| DummyKeyStorage._cached_keypairs :=
             <[(u, k) := kp]> (DummyKeyStorage._cached_keypairs (store w)) |})).
Proof.
  intros H. destruct (lookup u k w) as [old|] eqn:E.
  - destruct (public_key old) as [|x l] eqn:Ep.
    + rewrite (ensure_empty_public_key _ _ _ _ E Ep) in H.
      by destruct (generate_asymmetric_keypair k (entropy w)) as [[?|?] ?].
    + rewrite (ensure_present _ _ _ _ E) in H by (by rewrite Ep).
      injection H as <-. exists old. split; [done|]. left. by rewrite Ep.
  - rewrite (ensure_absent _ _ _ E) in H.
    destruct (generate_asymmetric_keypair k (entropy w)) as [[kp|?] e'] eqn:G;
      [|done].
    injection H as <-. exists kp. simpl. split.
    + unfold DummyKeyStorage._get_keypair. simpl. apply lookup_insert_eq.
    + right. done.
Qed.

End Provisioning.

(** ** The API calls, step by step *)

Section ApiSteps.
Context {B : Backend}.

Local Notation "'lookup' u k w" :=
  (DummyKeyStorage._get_keypair u k (key_storage w))
  (at level 10, u, k, w at level 9, only parsing).

Lemma get_public_key_steps u k (w : world DummyKeyStorage.t) :
  EscrowApi.get_public_key u k w =
    match EscrowApi._ensure_keypair_exists u k w with
    | (Ok _, w1) => (Ok (public_key <$> lookup u k w1), w1)
    | (Raise e, w1) => (Raise e, w1)
    end.
Proof.
  unfold EscrowApi.get_public_key. unfold_call.
  destruct (EscrowApi._ensure_keypair_exists u k w) as [[[]|e] w1]; [|done].
  simpl. by rewrite get_public_key_lookup.
Qed.

Lemma get_message_signature_steps u m k a (w : world DummyKeyStorage.t) :
  EscrowApi.get_message_signature u m k a w =
    match EscrowApi._ensure_keypair_exists u k w with
    | (Ok _, w1) =>
        match
          load_asymmetric_key_from_pem_bytestring
            (private_key <$> lookup u k w1) k
        with
        | Ok priv =>
            match sign a priv m (entropy w1) with
            | (Ok d, e') => (Ok {| digest := d |}, World (key_storage w1) e')
            | (Raise e, e') => (Raise e, World (key_storage w1) e')
            end
        | Raise e => (Raise e, w1)
        end
    | (Raise e, w1) => (Raise e, w1)
    end.
Proof.
  unfold EscrowApi.get_message_signature, sign_message. unfold_call.
  destruct (EscrowApi._ensure_keypair_exists u k w) as [[[]|e] w1]; [|done].
  simpl. rewrite get_private_key_lookup.
  destruct (load_asymmetric_key_from_pem_bytestring _ k) as [priv|e]; [|done].
  by destruct (sign a priv m (entropy w1)) as [[d|e] e'].
Qed.

Lemma decrypt_with_private_key_steps u k a cd (w : world DummyKeyStorage.t) :
  EscrowApi.decrypt_with_private_key u k a cd w =
    if String.eqb (str_upper k) "RSA" && String.eqb (str_upper a) "RSA_OAEP" then
      match EscrowApi._ensure_keypair_exists u k w with
      | (Ok _, w1) =>
          match
            load_asymmetric_key_from_pem_bytestring
              (private_key <$> lookup u k w1) k
          with
          | Ok priv => (_decrypt_via_rsa_oaep cd priv, w1)
          | Raise e => (Raise e, w1)
          end
      | (Raise e, w1) => (Raise e, w1)
      end
    else (Raise AssertionError, w).
Proof.
  unfold EscrowApi.decrypt_with_private_key. unfold_call.
  destruct (String.eqb (str_upper k) "RSA"); [|done].
  destruct (String.eqb (str_upper a) "RSA_OAEP"); [|done]. simpl.
  destruct (EscrowApi._ensure_keypair_exists u k w) as [[[]|e] w1]; [|done].
  simpl. rewrite get_private_key_lookup.
  destruct (load_asymmetric_key_from_pem_bytestring _ k) as [priv|e]; [|done].
  by destruct (_decrypt_via_rsa_oaep cd priv).
Qed.

(** Every request keeps every entry that is there. *)
Lemma perform_keeps (r : request) (w : world DummyKeyStorage.t) u0 k0 kp :
  lookup u0 k0 w = Some kp →
  lookup u0 k0 (perform r w) = Some kp.
Proof.
  intros H. destruct r as [u k pub priv|u k|u k|u k|u m k a|u k a cd]; simpl.
  - unfold storage_call.
    pose proof (set_keys_keeps u k pub priv (key_storage w) u0 k0 kp H) as Hk.
    by destruct (DummyKeyStorage.set_keys u k pub priv (key_storage w)).
  - done.
  - done.
  - rewrite get_public_key_steps.
    pose proof (ensure_keeps u k w u0 k0 kp H) as Hk.
    by destruct (EscrowApi._ensure_keypair_exists u k w) as [[[]|e] w1].
  - rewrite get_message_signature_steps.
    pose proof (ensure_keeps u k w u0 k0 kp H) as Hk.
    destruct (EscrowApi._ensure_keypair_exists u k w) as [[[]|e] w1]; [|done].
    simpl in Hk.
    destruct (load_asymmetric_key_from_pem_bytestring _ k) as [priv|e]; [|done].
    by destruct (sign a priv m (entropy w1)) as [[d|e] e'].
  - rewrite decrypt_with_private_key_steps.
    pose proof (ensure_keeps u k w u0 k0 kp H) as Hk.
    destruct (_ && _); [|done].
    destruct (EscrowApi._ensure_keypair_exists u k w) as [[[]|e] w1]; [|done].
    simpl in Hk.
    by destruct (load_asymmetric_key_from_pem_bytestring _ k) as [priv|e].
Qed.

Lemma perform_all_keeps (rs : list request) (w : world DummyKeyStorage.t)
    u0 k0 kp :
  lookup u0 k0 w = Some kp →
  lookup u0 k0 (perform_all rs w) = Some kp.
Proof.
  revert w. induction rs as [|r rs IH]; intros w H; [done|].
  simpl. apply IH. by apply perform_keeps.
Qed.

Lemma perform_all_app (rs1 rs2 : list request) (w : world DummyKeyStorage.t) :
  perform_all (rs1 ++ rs2) w = perform_all rs2 (perform_all rs1 w).
Proof. unfold perform_all. by rewrite fold_left_app. Qed.

End ApiSteps.

(** ** Write-once storage *)

Lemma set_keys_all_lookup calls (self : DummyKeyStorage.t) u k :
  DummyKeyStorage._get_keypair u k (set_keys_all calls self) =
    match DummyKeyStorage._get_keypair u k self with
    | Some kp => Some kp
    | None => first_call_for u k calls
    end.
Proof.
  revert self. induction calls as [|[[[u' k'] pub] priv] calls IH]; intros self.
  - simpl. by destruct (DummyKeyStorage._get_keypair u k self).
  - change (set_keys_all ((u', k', pub, priv) :: calls) self)
      with (set_keys_all calls (snd (DummyKeyStorage.set_keys u' k' pub priv self))).
    rewrite IH. clear IH.
    destruct (DummyKeyStorage._get_keypair u k self) as [kp|] eqn:E.
    + by rewrite (set_keys_keeps _ _ _ _ _ _ _ _ E).
    + unfold first_call_for. simpl. case_bool_decide as Hk.
      * injection Hk as -> ->. rewrite (set_keys_absent _ _ _ _ _ E). simpl.
        unfold DummyKeyStorage._get_keypair. simpl. by rewrite lookup_insert_eq.
      * replace (DummyKeyStorage._get_keypair u k
                   (snd (DummyKeyStorage.set_keys u' k' pub priv self)))
          with (@None Keypair); [done|].
        destruct (DummyKeyStorage._get_keypair u' k' self) as [old|] eqn:E'.
        -- by rewrite (set_keys_present _ _ _ _ _ _ E').
        -- rewrite (set_keys_absent _ _ _ _ _ E'). simpl.
           unfold DummyKeyStorage._get_keypair in *. simpl.
           rewrite lookup_insert_ne; [done|]. congruence.
Qed.

(** C4.  Write-once key storage: on a storage that holds no pair for
    [(uid, key_type)] the first [set_keys] succeeds, and from then on,
    whatever calls are made on the storage and on the API in between, every
    [set_keys] for the same pair raises the already-existing error and leaves
    the storage as it is, whatever key bytes it is given (the stored ones
    included). *)
Theorem set_keys_write_once {B : Backend} u k pub priv
    (self : DummyKeyStorage.t) :
  DummyKeyStorage._get_keypair u k self = None →
  ∃ self',
    DummyKeyStorage.set_keys u k pub priv self = (Ok tt, self') ∧
    ∀ (rs : list request) (e : N) pub' priv',
      DummyKeyStorage.set_keys u k pub' priv'
        (key_storage (perform_all rs (World self' e))) =
      (Raise (DummyKeyStorage.already_existing u k),
       key_storage (perform_all rs (World self' e))).
Proof.
  intros H. eexists. split; [by apply set_keys_absent|].
  intros rs e pub' priv'.
  eapply set_keys_present, perform_all_keeps. simpl.
  unfold DummyKeyStorage._get_keypair. simpl. apply lookup_insert_eq.
Qed.

Lemma set_keys_write_once_witness :
  DummyKeyStorage._get_keypair "aaa" "bbb" DummyKeyStorage.__init__ = None ∧
  ∃ self',
    DummyKeyStorage.set_keys "aaa" "bbb" (b "public") (b "private")
      DummyKeyStorage.__init__ = (Ok tt, self') ∧
    ∀ (rs : list request) (e : N) pub' priv',
      DummyKeyStorage.set_keys "aaa" "bbb" pub' priv'
        (key_storage (perform_all (B:=Toy.backend) rs (World self' e))) =
      (Raise (DummyKeyStorage.already_existing "aaa" "bbb"),
       key_storage (perform_all (B:=Toy.backend) rs (World self' e))).
Proof.
  split; [reflexivity|].
  apply (set_keys_write_once (B:=Toy.backend)). reflexivity.
Defined.

(** C5.  Storage reads are total and faithful: the getters are functions
    into [option bytes] (they cannot raise), and after any sequence of
    [set_keys] calls on a new storage they return the bytes given to the
    first call made for the pair, which is the one that succeeded, and
    [None] when no call was made for the pair. *)
Theorem storage_reads_faithful
    (calls : list (string * string * bytes * bytes)) u k :
  DummyKeyStorage.get_public_key u k
    (set_keys_all calls DummyKeyStorage.__init__)
    = public_key <$> first_call_for u k calls ∧
  DummyKeyStorage.get_private_key u k
    (set_keys_all calls DummyKeyStorage.__init__)
    = private_key <$> first_call_for u k calls.
Proof.
  rewrite get_public_key_lookup, get_private_key_lookup, set_keys_all_lookup.
  unfold DummyKeyStorage._get_keypair. simpl. by rewrite lookup_empty.
Qed.

(** The storage part of [test_key_storage_base]. *)
Example test_key_storage_base :
  let calls := [("aaa", "bbb", b "public", b "private");
                ("aaa", "bbb", b "public", b "private");
                ("aaa", "bbb", b "public2", b "private2")] in
  let key_storage := set_keys_all calls DummyKeyStorage.__init__ in
  fst (DummyKeyStorage.set_keys "aaa" "bbb" (b "public") (b "private")
         DummyKeyStorage.__init__) = Ok tt ∧
  fst (DummyKeyStorage.set_keys "aaa" "bbb" (b "public") (b "private")
         (set_keys_all (take 1 calls) DummyKeyStorage.__init__))
    = Raise (RuntimeError "Can't save already existing key aaa/bbb") ∧
  fst (DummyKeyStorage.set_keys "aaa" "bbb" (b "public2") (b "private2")
         (set_keys_all (take 2 calls) DummyKeyStorage.__init__))
    = Raise (RuntimeError "Can't save already existing key aaa/bbb") ∧
  DummyKeyStorage.get_public_key "aaa" "bbb" key_storage = Some (b "public") ∧
  DummyKeyStorage.get_private_key "aaa" "bbb" key_storage = Some (b "private") ∧
  DummyKeyStorage.get_public_key "aaa" "bbbX" key_storage = None ∧
  DummyKeyStorage.get_private_key "aaa" "bbbX" key_storage = None ∧
  DummyKeyStorage.get_public_key "aaaX" "bbb" key_storage = None ∧
  DummyKeyStorage.get_private_key "aaaX" "bbb" key_storage = None.
Proof. vm_compute. by repeat split. Qed.

(** ** The at-most-one-keypair invariant *)

Lemma entries_for_none (l : list (string * string * Keypair)) key :
  key ∉ l.*1 → filter (λ p, p.1 = key) l = [].
Proof.
  induction l as [|[key' kp] l IH]; intros Hnotin; [done|].
  rewrite fmap_cons in Hnotin. apply not_elem_of_cons in Hnotin as [Hne Hnotin].
  rewrite filter_cons. simpl in *. case_decide; [congruence|]. by apply IH.
Qed.

(** The entries of the storage made for the pair [(uid, key_type)]. *)
Lemma entries_for_at_most_one (m : gmap (string * string) Keypair) key :
  (length (filter (λ p, p.1 = key) (map_to_list m)) ≤ 1)%nat.
Proof.
  pose proof (NoDup_fst_map_to_list m) as Hnd.
  induction (map_to_list m) as [|[key' kp] l IH]; [simpl; lia|].
  rewrite fmap_cons in Hnd. apply NoDup_cons in Hnd as [Hnotin Hnd].
  rewrite filter_cons. simpl in *. case_decide as Hk.
  - subst key'. rewrite (entries_for_none _ _ Hnotin). simpl. lia.
  - by apply IH.
Qed.

(** C9.  At most one key pair per pair of identifiers, never overwritten:
    in the state reached by any sequence of storage and API calls the
    storage has at most one entry for [(uid, key_type)], and a key pair that
    is stored at some point of the sequence is still stored, with the same
    public and private key bytes, after any further calls, failing
    [set_keys] calls included. *)
Theorem keypair_never_overwritten {B : Backend}
    (rs1 rs2 : list request) (w : world DummyKeyStorage.t) u k kp :
  DummyKeyStorage._get_keypair u k (key_storage (perform_all rs1 w)) = Some kp →
  let later := key_storage (perform_all (rs1 ++ rs2) w) in
  DummyKeyStorage._get_keypair u k later = Some kp ∧
  DummyKeyStorage.get_public_key u k later = Some (public_key kp) ∧
  DummyKeyStorage.get_private_key u k later = Some (private_key kp) ∧
  (length (filter (λ p, p.1 = (u, k))
             (map_to_list (DummyKeyStorage._cached_keypairs later))) ≤ 1)%nat.
Proof.
  intros H later. subst later. rewrite perform_all_app.
  pose proof (perform_all_keeps rs2 _ _ _ _ H) as Hk.
  rewrite get_public_key_lookup, get_private_key_lookup, Hk.
  repeat split. apply entries_for_at_most_one.
Qed.

Lemma keypair_never_overwritten_witness :
  let rs1 := [KS_set_keys "aaa" "bbb" (b "public") (b "private")] in
  let rs2 := [KS_set_keys "aaa" "bbb" (b "public2") (b "private2");
              Api_get_public_key "aaa" "bbb";
              Api_get_message_signature "aaa" (b "m") "bbb" "PSS"] in
  let w := World DummyKeyStorage.__init__ 0 in
  let kp := {| public_key := b "public"; private_key := b "private" |} in
  let later := key_storage (perform_all (B:=Toy.backend) (rs1 ++ rs2) w) in
  DummyKeyStorage._get_keypair "aaa" "bbb"
    (key_storage (perform_all (B:=Toy.backend) rs1 w)) = Some kp ∧
  DummyKeyStorage._get_keypair "aaa" "bbb" later = Some kp ∧
  DummyKeyStorage.get_public_key "aaa" "bbb" later = Some (b "public") ∧
  DummyKeyStorage.get_private_key "aaa" "bbb" later = Some (b "private") ∧
  (length (filter (λ p, p.1 = ("aaa", "bbb"))
             (map_to_list (DummyKeyStorage._cached_keypairs later))) ≤ 1)%nat.
Proof.
  intros rs1 rs2 w kp later.
  split; [reflexivity|].
  apply (keypair_never_overwritten (B:=Toy.backend) rs1 rs2 w "aaa" "bbb" kp).
  reflexivity.
Defined.

(** ** Lazy provisioning *)

(** C2.  Lazy provisioning: when the storage holds no key pair for
    [(uid, key_type)], [EscrowApi.get_public_key] generates a key pair,
    persists it with [set_keys], which succeeds, and returns the public key
    it persisted; afterwards the storage is the old one with exactly that key
    pair added for the pair. *)
Theorem get_public_key_provisions {B : Backend} u k
    (w : world DummyKeyStorage.t) kp e' :
  DummyKeyStorage._get_keypair u k (key_storage w) = None →
  generate_asymmetric_keypair k (entropy w) = (Ok kp, e') →
  ∃ stored,
    DummyKeyStorage.set_keys u k (public_key kp) (private_key kp) (key_storage w)
      = (Ok tt, stored) ∧
    EscrowApi.get_public_key u k w = (Ok (Some (public_key kp)), World stored e') ∧
    DummyKeyStorage._get_keypair u k stored = Some kp ∧
    DummyKeyStorage._cached_keypairs stored
      = <[(u, k) := kp]> (DummyKeyStorage._cached_keypairs (key_storage w)).
Proof.
  intros H G. eexists. split.
  - rewrite (set_keys_absent _ _ _ _ _ H), keypair_eta. reflexivity.
  - rewrite get_public_key_steps, (ensure_absent _ _ _ H), G. simpl.
    unfold DummyKeyStorage._get_keypair. simpl. rewrite lookup_insert_eq.
    by repeat split.
Qed.

Lemma get_public_key_provisions_witness :
  let w := World DummyKeyStorage.__init__ 7 in
  let kp := {| public_key := [x50; x07]; private_key := [x53; x07] |} in
  DummyKeyStorage._get_keypair "u" "RSA" (key_storage w) = None ∧
  generate_asymmetric_keypair (Backend:=Toy.backend) "RSA" (entropy w)
    = (Ok kp, 8%N) ∧
  ∃ stored,
    DummyKeyStorage.set_keys "u" "RSA" (public_key kp) (private_key kp)
      (key_storage w) = (Ok tt, stored) ∧
    EscrowApi.get_public_key (B:=Toy.backend) "u" "RSA" w
      = (Ok (Some (public_key kp)), World stored 8%N) ∧
    DummyKeyStorage._get_keypair "u" "RSA" stored = Some kp ∧
    DummyKeyStorage._cached_keypairs stored
      = <[("u", "RSA") := kp]> (DummyKeyStorage._cached_keypairs (key_storage w)).
Proof.
  intros w kp. split; [reflexivity|]. split; [reflexivity|].
  apply (get_public_key_provisions (B:=Toy.backend) "u" "RSA" w kp 8%N);
    reflexivity.
Defined.

(** C3.  Lazy provisioning determinism: when a call of
    [EscrowApi.get_public_key] has returned a public key (a PEM bytestring,
    so not empty), a second call for the same pair returns the same bytes,
    finds the public key in the storage, so that it neither generates a key
    pair nor calls [set_keys], and leaves the storage and the random source
    untouched. *)
Theorem get_public_key_twice {B : Backend} u k
    (w w1 : world DummyKeyStorage.t) pk :
  EscrowApi.get_public_key u k w = (Ok (Some pk), w1) →
  pk ≠ [] →
  EscrowApi.get_public_key u k w1 = (Ok (Some pk), w1) ∧
  truthy (DummyKeyStorage.get_public_key u k (key_storage w1)) = true ∧
  EscrowApi._ensure_keypair_exists u k w1 = (Ok tt, w1).
Proof.
  intros H Hne. rewrite get_public_key_steps in H.
  destruct (EscrowApi._ensure_keypair_exists u k w) as [[[]|e] w'] eqn:E; [|done].
  injection H as Hpk <-.
  destruct (DummyKeyStorage._get_keypair u k (key_storage w')) as [kp|] eqn:L;
    [|done].
  injection Hpk as Hpk. subst pk.
  assert (EscrowApi._ensure_keypair_exists u k w' = (Ok tt, w')) as E'
    by (by eapply ensure_present).
  rewrite get_public_key_steps, E', get_public_key_lookup, L. simpl.
  repeat split. by destruct (public_key kp).
Qed.

Lemma get_public_key_twice_witness :
  let w := World DummyKeyStorage.__init__ 7 in
  let w1 := snd (EscrowApi.get_public_key (B:=Toy.backend) "u" "RSA" w) in
  let pk := [x50; x07] in
  EscrowApi.get_public_key (B:=Toy.backend) "u" "RSA" w = (Ok (Some pk), w1) ∧
  pk ≠ [] ∧
  EscrowApi.get_public_key (B:=Toy.backend) "u" "RSA" w1 = (Ok (Some pk), w1) ∧
  truthy (DummyKeyStorage.get_public_key "u" "RSA" (key_storage w1)) = true ∧
  EscrowApi._ensure_keypair_exists (B:=Toy.backend) "u" "RSA" w1 = (Ok tt, w1).
Proof.
  intros w w1 pk. split; [reflexivity|]. split; [discriminate|].
  apply (get_public_key_twice (B:=Toy.backend) "u" "RSA" w w1 pk);
    [reflexivity|discriminate].
Defined.

(** ** Empty public keys *)

(** C10.  Empty-key conflation: when the storage holds for
    [(uid, key_type)] a key pair whose public key is [b""], the storage
    itself returns that empty key, but [_ensure_keypair_exists] takes it for
    absent, generates a key pair and has it refused by [set_keys]; so
    [get_public_key], [get_message_signature] and (for the supported
    algorithms, which alone reach the provisioning step)
    [decrypt_with_private_key] all raise the already-existing error; the
    storage is unchanged and the random source has been read. *)
Theorem empty_public_key_conflation {B : Backend} u k
    (w : world DummyKeyStorage.t) kp generated e' :
  DummyKeyStorage._get_keypair u k (key_storage w) = Some kp →
  public_key kp = [] →
  generate_asymmetric_keypair k (entropy w) = (Ok generated, e') →
  let after := World (key_storage w) e' in
  let already := DummyKeyStorage.already_existing u k in
  DummyKeyStorage.get_public_key u k (key_storage w) = Some [] ∧
  EscrowApi._ensure_keypair_exists u k w = (Raise already, after) ∧
  EscrowApi.get_public_key u k w = (Raise already, after) ∧
  (∀ m a, EscrowApi.get_message_signature u m k a w = (Raise already, after)) ∧
  (∀ a cd,
     str_upper k = "RSA" → str_upper a = "RSA_OAEP" →
     EscrowApi.decrypt_with_private_key u k a cd w = (Raise already, after)).
Proof.
  intros H He G after already.
  assert (EscrowApi._ensure_keypair_exists u k w = (Raise already, after)) as E
    by (by rewrite (ensure_empty_public_key _ _ _ _ H He), G).
  split; [by rewrite get_public_key_lookup, H; simpl; rewrite He|].
  split; [done|].
  split; [by rewrite get_public_key_steps, E|].
  split.
  - intros m a. by rewrite get_message_signature_steps, E.
  - intros a cd Hk Ha.
    by rewrite decrypt_with_private_key_steps, Hk, Ha, E.
Qed.

Lemma empty_public_key_conflation_witness :
  let self :=
    snd (DummyKeyStorage.set_keys "u" "RSA" [] (b "private")
           DummyKeyStorage.__init__) in
  let w := World self 7 in
  let after := World self 8 in
  let already := DummyKeyStorage.already_existing "u" "RSA" in
  DummyKeyStorage.get_public_key "u" "RSA" self = Some [] ∧
  EscrowApi._ensure_keypair_exists (B:=Toy.backend) "u" "RSA" w
    = (Raise already, after) ∧
  EscrowApi.get_public_key (B:=Toy.backend) "u" "RSA" w
    = (Raise already, after) ∧
  (∀ m a, EscrowApi.get_message_signature (B:=Toy.backend) "u" m "RSA" a w
          = (Raise already, after)) ∧
  (∀ a cd,
     str_upper (B:=Toy.backend) "RSA" = "RSA" → str_upper (B:=Toy.backend) a = "RSA_OAEP" →
     EscrowApi.decrypt_with_private_key (B:=Toy.backend) "u" "RSA" a cd w
     = (Raise already, after)).
Proof.
  intros self w after already.
  apply (empty_public_key_conflation (B:=Toy.backend) "u" "RSA" w
           {| public_key := []; private_key := b "private" |}
           {| public_key := [x50; x07]; private_key := [x53; x07] |} 8%N);
    reflexivity.
Defined.

(** ** Unsupported algorithms *)

(** C6, as the code has it.  The two guards of [decrypt_with_private_key]
    compare the upper-cased names: a call whose [key_type.upper()] is not
    ["RSA"] or whose [encryption_algo.upper()] is not ["RSA_OAEP"] raises
    [AssertionError] before anything else happens: the storage and the
    random source are untouched, whatever storage and backend the API runs
    on.  [str_upper] is [str.upper] on every text, not on ASCII text only:
    a name that the interpreter's Unicode mapping sends to ["RSA"] passes
    the guard like a lower-case one. *)
Theorem decrypt_rejects_unsupported {S : Type} {KS : KeyStorageBase.t S}
    {B : Backend} u k a cd (w : world S) :
  str_upper k ≠ "RSA" ∨ str_upper a ≠ "RSA_OAEP" →
  EscrowApi.decrypt_with_private_key u k a cd w = (Raise AssertionError, w).
Proof.
  intros H. unfold EscrowApi.decrypt_with_private_key. unfold_call.
  destruct (String.eqb_spec (str_upper k) "RSA") as [Hk|Hk]; [|done].
  destruct (String.eqb_spec (str_upper a) "RSA_OAEP") as [Ha|Ha]; [|done].
  by destruct H.
Qed.

Lemma decrypt_rejects_unsupported_witness :
  (str_upper (B:=Toy.backend) "DSA" ≠ "RSA" ∨ str_upper (B:=Toy.backend) "RSA_OAEP" ≠ "RSA_OAEP") ∧
  EscrowApi.decrypt_with_private_key (B:=Toy.backend) "u" "DSA" "RSA_OAEP"
    {| digest_list := [] |} (World DummyKeyStorage.__init__ 7)
  = (Raise AssertionError, World DummyKeyStorage.__init__ 7).
Proof.
  split; [left; discriminate|].
  apply (decrypt_rejects_unsupported (B:=Toy.backend)). left. discriminate.
Defined.

(** C6, as stated, fails: the key type ["rsa"] is not ["RSA"] and the
    algorithm ["rsa_oaep"] is not ["RSA_OAEP"], yet the call passes both
    guards, provisions a key pair for [("u", "rsa")] and returns. *)
Lemma decrypt_accepts_lower_case :
  "rsa" ≠ "RSA" ∧ "rsa_oaep" ≠ "RSA_OAEP" ∧
  EscrowApi.decrypt_with_private_key (B:=Toy.backend) "u" "rsa" "rsa_oaep"
    {| digest_list := [] |} (World DummyKeyStorage.__init__ 7)
  = (Ok [],
     World {| DummyKeyStorage._cached_keypairs :=
                {[ ("u", "rsa") :=
                     {| public_key := [x50; x07]; private_key := [x53; x07] |} ]} |}
           8).
Proof. split; [discriminate|]. split; [discriminate|]. reflexivity. Qed.

(** ** The small backend satisfies the assumptions *)

Lemma toy_oaep_inverse i :
  oaep_inverse (B:=Toy.backend)
    {| Toy.ident := i; Toy.is_private := false |}
    {| Toy.ident := i; Toy.is_private := true |}.
Proof.
  intros m r c r' H. simpl in *. unfold Toy.encrypt in H. simpl in H.
  destruct m as [|x [|y [|z m]]]; simplify_eq; (split; [done|]);
    unfold Toy.decrypt; simpl; by rewrite Byte.byte_dec_lb by done.
Qed.

Lemma toy_signature_sound i :
  signature_sound (B:=Toy.backend)
    {| Toy.ident := i; Toy.is_private := false |}
    {| Toy.ident := i; Toy.is_private := true |}.
Proof.
  intros algo m r d r' H. simpl in *. unfold Toy.make_signature in H.
  simplify_eq. unfold Toy.check_signature. simpl.
  by rewrite !Byte.byte_dec_lb by done.
Qed.

Lemma toy_laws : BackendLaws Toy.backend.
Proof.
  split.
  - intros key_type r kp r' H. simpl in H. unfold Toy.generate in H.
    destruct (String.eqb (upper key_type) "RSA"); simplify_eq.
    split; [done|]. eexists _, _. simpl.
    split; [reflexivity|]. split; [reflexivity|].
    split; [apply toy_oaep_inverse|apply toy_signature_sound].
  - intros algo key m d H. simpl in *. unfold Toy.check_signature in H.
    by destruct d as [|? [|? [|? [|? [|? ?]]]]].
Qed.

(** ** Decryption and signatures at the escrow boundary *)

Section Boundary.
Context {B : Backend}.

Local Notation "'lookup' u k w" :=
  (DummyKeyStorage._get_keypair u k (key_storage w))
  (at level 10, u, k, w at level 9, only parsing).

(** Provisioning that returns leaves a good key pair for the pair, provided
    the one that was there, if any, was good. *)
Lemma ensure_ok_good {L : BackendLaws B} u k (w w1 : world DummyKeyStorage.t) :
  (∀ kp, lookup u k w = Some kp → good_keypair k kp) →
  EscrowApi._ensure_keypair_exists u k w = (Ok tt, w1) →
  ∃ kp, lookup u k w1 = Some kp ∧ good_keypair k kp.
Proof.
  intros Hgood E. destruct (ensure_ok_inv _ _ _ _ E) as (kp & Hkp & [[-> _]|(_ & G & _)]).
  - exists kp. split; [done|]. by apply Hgood.
  - exists kp. split; [done|]. by eapply keygen_good.
Qed.

Lemma decrypt_chunks_app (key : Key) (l1 l2 : list bytes) :
  decrypt_chunks key (l1 ++ l2) =
    match decrypt_chunks key l1 with
    | Raise e => Raise e
    | Ok p1 =>
        match decrypt_chunks key l2 with
        | Raise e => Raise e
        | Ok p2 => Ok (p1 ++ p2)%list
        end
    end.
Proof.
  induction l1 as [|c l1 IH]; simpl.
  - by destruct (decrypt_chunks key l2).
  - destruct (decrypt_chunk key c) as [p|e]; [|done]. rewrite IH.
    destruct (decrypt_chunks key l1) as [p1|e]; [|done].
    destruct (decrypt_chunks key l2) as [p2|e]; [|done].
    by rewrite app_assoc.
Qed.

Lemma decrypt_chunks_bad (key : Key) (bad : bytes) (rest : list bytes) :
  length bad ≠ size_in_bytes key →
  decrypt_chunks key (bad :: rest) = Raise incorrect_length.
Proof. intros H. simpl. unfold decrypt_chunk. by case_decide. Qed.

End Boundary.

(** C1.  Round trip at the escrow boundary: on a storage whose key pair for
    [(uid, "RSA")], if there is one, is a good one (as the escrow's own
    provisioning makes them), a message that [_encrypt_via_rsa_oaep] accepts
    (one small enough for the block), encrypted under the public key that
    [EscrowApi.get_public_key uid "RSA"] returned, is returned exactly by
    [EscrowApi.decrypt_with_private_key uid "RSA" "RSA_OAEP"], which changes
    nothing. *)
Theorem escrow_round_trip {B : Backend} {L : BackendLaws B} u
    (w w1 : world DummyKeyStorage.t) pem pub m r cd r' :
  (∀ kp, DummyKeyStorage._get_keypair u "RSA" (key_storage w) = Some kp →
         good_keypair "RSA" kp) →
  EscrowApi.get_public_key u "RSA" w = (Ok (Some pem), w1) →
  load_asymmetric_key_from_pem_bytestring (Some pem) "RSA" = Ok pub →
  _encrypt_via_rsa_oaep m pub r = (Ok cd, r') →
  ∀ e,
    EscrowApi.decrypt_with_private_key u "RSA" "RSA_OAEP" cd
      (World (key_storage w1) e)
    = (Ok m, World (key_storage w1) e).
Proof.
  intros Hgood Hget Hload Henc e.
  rewrite get_public_key_steps in Hget.
  destruct (EscrowApi._ensure_keypair_exists u "RSA" w) as [[[]|x] w'] eqn:E;
    [|done].
  injection Hget as Hpem <-.
  destruct (ensure_ok_good _ _ _ _ Hgood E)
    as (kp & Hkp & Hne & pub' & priv & Hpub & Hpriv & Hinv & _).
  rewrite Hkp in Hpem. injection Hpem as <-.
  rewrite Hpub in Hload. injection Hload as ->.
  unfold _encrypt_via_rsa_oaep in Henc. unfold_call.
  destruct (oaep_encrypt pub m r) as [[c|x] r''] eqn:Ec; [|done].
  injection Henc as <- <-.
  destruct (Hinv _ _ _ _ Ec) as [Hlen Hdec].
  rewrite decrypt_with_private_key_steps. simpl.
  rewrite (ensure_present u "RSA" (World (key_storage w') e) kp Hkp Hne).
  simpl. rewrite Hkp. simpl. rewrite Hpriv.
  unfold _decrypt_via_rsa_oaep, decrypt_chunk. simpl. unfold decrypt_chunk.
  case_decide; [|done]. rewrite Hdec. by rewrite app_nil_r.
Qed.

Lemma escrow_round_trip_witness :
  let w := World DummyKeyStorage.__init__ 7 in
  let w1 := snd (EscrowApi.get_public_key (B:=Toy.backend) "u" "RSA" w) in
  let pem := [x50; x07] in
  let pub := {| Toy.ident := x07; Toy.is_private := false |} in
  let cd := {| digest_list := [[x07; x02; x68; x69]] |} in
  EscrowApi.get_public_key (B:=Toy.backend) "u" "RSA" w = (Ok (Some pem), w1) ∧
  load_asymmetric_key_from_pem_bytestring (Backend:=Toy.backend) (Some pem) "RSA"
    = Ok pub ∧
  _encrypt_via_rsa_oaep (B:=Toy.backend) (b "hi") pub 8%N = (Ok cd, 9%N) ∧
  ∀ e,
    EscrowApi.decrypt_with_private_key (B:=Toy.backend) "u" "RSA" "RSA_OAEP" cd
      (World (key_storage w1) e)
    = (Ok (b "hi"), World (key_storage w1) e).
Proof.
  intros w w1 pem pub cd.
  split; [reflexivity|]. split; [reflexivity|]. split; [reflexivity|].
  apply (escrow_round_trip (B:=Toy.backend) (L:=toy_laws) "u" w w1 pem pub
           (b "hi") 8%N cd 9%N);
    [intros kp H; vm_compute in H; discriminate H
    |reflexivity|reflexivity|reflexivity].
Defined.

(** C7.  Length-mismatch failure: when the guards pass, provisioning returns
    and the stored private key loads, a cipherdict whose digest list has a
    chunk whose length is not the block size of that key makes
    [EscrowApi.decrypt_with_private_key] raise, so no plaintext, truncated or
    other, is returned; and when the chunks before that one decrypt (as in a
    valid cipherdict with a malformed chunk appended) the error raised is the
    length-mismatch one. *)
Theorem decrypt_incorrect_length {B : Backend} u k a cd
    (w w1 : world DummyKeyStorage.t) priv good bad rest :
  str_upper k = "RSA" →
  str_upper a = "RSA_OAEP" →
  EscrowApi._ensure_keypair_exists u k w = (Ok tt, w1) →
  load_asymmetric_key_from_pem_bytestring
    (DummyKeyStorage.get_private_key u k (key_storage w1)) k = Ok priv →
  digest_list cd = (good ++ bad :: rest)%list →
  length bad ≠ size_in_bytes priv →
  (∃ e, EscrowApi.decrypt_with_private_key u k a cd w = (Raise e, w1)) ∧
  (is_ok (decrypt_chunks priv good) = true →
   EscrowApi.decrypt_with_private_key u k a cd w = (Raise incorrect_length, w1)).
Proof.
  intros Hk Ha E Hload Hcd Hlen.
  rewrite get_private_key_lookup in Hload.
  rewrite decrypt_with_private_key_steps, Hk, Ha, E. simpl. rewrite Hload.
  unfold _decrypt_via_rsa_oaep. rewrite Hcd, decrypt_chunks_app.
  rewrite (decrypt_chunks_bad _ _ _ Hlen).
  destruct (decrypt_chunks priv good) as [p|e]; simpl.
  - split; [by eexists|done].
  - split; [by eexists|done].
Qed.

Lemma decrypt_incorrect_length_witness :
  let w := World DummyKeyStorage.__init__ 7 in
  let w1 := snd (EscrowApi.get_public_key (B:=Toy.backend) "u" "RSA" w) in
  let priv := {| Toy.ident := x07; Toy.is_private := true |} in
  let good := [[x07; x02; x68; x69]] in
  let cd := digest_list_append {| digest_list := good |} (b "aaabbbccc") in
  EscrowApi._ensure_keypair_exists (B:=Toy.backend) "u" "RSA" w1 = (Ok tt, w1) ∧
  length (b "aaabbbccc") ≠ size_in_bytes (Backend:=Toy.backend) priv ∧
  is_ok (decrypt_chunks (B:=Toy.backend) priv good) = true ∧
  (∃ e, EscrowApi.decrypt_with_private_key (B:=Toy.backend) "u" "RSA" "RSA_OAEP"
          cd w1 = (Raise e, w1)) ∧
  (is_ok (decrypt_chunks (B:=Toy.backend) priv good) = true →
   EscrowApi.decrypt_with_private_key (B:=Toy.backend) "u" "RSA" "RSA_OAEP" cd w1
   = (Raise incorrect_length, w1)).
Proof.
  intros w w1 priv good cd.
  split; [reflexivity|]. split; [vm_compute; lia|]. split; [reflexivity|].
  apply (decrypt_incorrect_length (B:=Toy.backend) "u" "RSA" "RSA_OAEP" cd
           w1 w1 priv good (b "aaabbbccc") []);
    [reflexivity|reflexivity|reflexivity|reflexivity|reflexivity
    |vm_compute; lia].
Defined.

(** C8.  Signature tamper detection: on a storage whose key pair for
    [(uid, key_type)], if there is one, is a good one, the signature
    structure that [EscrowApi.get_message_signature] returns for a message
    verifies against that message under the public key the escrow then
    returns for the pair, and the same structure with any non-empty bytes
    appended to its digest (such as [b"xyz"]) fails verification with the
    incorrect-signature error. *)
Theorem signature_tamper_detection {B : Backend} {L : BackendLaws B} u m k a
    (w w1 : world DummyKeyStorage.t) signature :
  (∀ kp, DummyKeyStorage._get_keypair u k (key_storage w) = Some kp →
         good_keypair k kp) →
  EscrowApi.get_message_signature u m k a w = (Ok signature, w1) →
  ∃ pem pub,
    EscrowApi.get_public_key u k w1 = (Ok (Some pem), w1) ∧
    load_asymmetric_key_from_pem_bytestring (Some pem) k = Ok pub ∧
    verify_message_signature m signature pub a = Ok tt ∧
    ∀ suffix,
      suffix ≠ [] →
      verify_message_signature m (digest_extend signature suffix) pub a
      = Raise incorrect_signature.
Proof.
  intros Hgood Hsig. rewrite get_message_signature_steps in Hsig.
  destruct (EscrowApi._ensure_keypair_exists u k w) as [[[]|x] w'] eqn:E;
    [|done].
  destruct (ensure_ok_good _ _ _ _ Hgood E)
    as (kp & Hkp & Hne & pub & priv & Hpub & Hpriv & _ & Hsound).
  rewrite Hkp in Hsig. simpl in Hsig. rewrite Hpriv in Hsig.
  destruct (sign a priv m (entropy w')) as [[d|x] e'] eqn:Es; [|done].
  injection Hsig as <- <-.
  pose proof (Hsound _ _ _ _ _ Es) as Hver.
  exists (public_key kp), pub.
  rewrite get_public_key_steps.
  rewrite (ensure_present u k (World (key_storage w') e') kp Hkp Hne).
  simpl. rewrite Hkp. simpl. split; [done|]. split; [done|].
  unfold verify_message_signature. simpl. rewrite Hver. split; [done|].
  intros suffix Hsuffix.
  destruct (verify a pub m (d ++ suffix)%list) eqn:Hbad; [|done].
  apply signature_length in Hver, Hbad. rewrite length_app in Hbad.
  destruct suffix; [done|]. simpl in Hbad. lia.
Qed.

Lemma signature_tamper_detection_witness :
  let w := World DummyKeyStorage.__init__ 7 in
  let signature := {| digest := [x07; x73; x00; x00] |} in
  let w1 := snd (EscrowApi.get_message_signature (B:=Toy.backend)
                   "u" (b "secret") "RSA" "PSS" w) in
  EscrowApi.get_message_signature (B:=Toy.backend) "u" (b "secret") "RSA" "PSS" w
    = (Ok signature, w1) ∧
  ∃ pem pub,
    EscrowApi.get_public_key (B:=Toy.backend) "u" "RSA" w1 = (Ok (Some pem), w1) ∧
    load_asymmetric_key_from_pem_bytestring (Backend:=Toy.backend) (Some pem) "RSA"
      = Ok pub ∧
    verify_message_signature (B:=Toy.backend) (b "secret") signature pub "PSS"
      = Ok tt ∧
    ∀ suffix,
      suffix ≠ [] →
      verify_message_signature (B:=Toy.backend) (b "secret")
        (digest_extend signature suffix) pub "PSS"
      = Raise incorrect_signature.
Proof.
  intros w signature w1. split; [reflexivity|].
  apply (signature_tamper_detection (B:=Toy.backend) (L:=toy_laws)
           "u" (b "secret") "RSA" "PSS" w w1 signature);
    [intros kp H; vm_compute in H; discriminate H|reflexivity].
Defined.

(** The API part of [test_escrow_api_workflow], on the small backend. *)
Example test_escrow_api_workflow :
  let secret := b "hi" in
  let w0 := World DummyKeyStorage.__init__ 7 in
  let got := EscrowApi.get_public_key (B:=Toy.backend) "u" "RSA" w0 in
  let public_key := {| Toy.ident := x07; Toy.is_private := false |} in
  let signed :=
    EscrowApi.get_message_signature (B:=Toy.backend) "u" secret "RSA" "PSS"
      (snd got) in
  let signature := {| digest := [x07; x68; x00; x00] |} in
  let encrypted :=
    _encrypt_via_rsa_oaep (B:=Toy.backend) secret public_key
      (entropy (snd signed)) in
  let cipherdict := {| digest_list := [[x07; x02; x68; x69]] |} in
  let w := World (key_storage (snd signed)) (snd encrypted) in
  fst got = Ok (Some [x50; x07]) ∧
  load_asymmetric_key_from_pem_bytestring (Backend:=Toy.backend)
    (Some [x50; x07]) "RSA" = Ok public_key ∧
  fst signed = Ok signature ∧
  verify_message_signature (B:=Toy.backend) secret signature public_key "PSS"
    = Ok tt ∧
  verify_message_signature (B:=Toy.backend) secret
    (digest_extend signature (b "xyz")) public_key "PSS"
    = Raise incorrect_signature ∧
  fst encrypted = Ok cipherdict ∧
  EscrowApi.decrypt_with_private_key (B:=Toy.backend) "u" "RSA" "RSA_OAEP"
    cipherdict w = (Ok secret, w) ∧
  EscrowApi.decrypt_with_private_key (B:=Toy.backend) "u" "RSA" "RSA_OAEP"
    (digest_list_append cipherdict (b "aaabbbccc")) w
    = (Raise incorrect_length, w).
Proof. vm_compute. by repeat split. Qed.

(** * Further properties of the escrow API *)

(** ** On any storage backend *)

Section AnyStorage.
Context {S : Type} {KS : KeyStorageBase.t S} {B : Backend}.

Lemma ensure_generation_raises u k (w : world S) e e' :
  truthy (KeyStorageBase.get_public_key u k (key_storage w)) = false →
  generate_asymmetric_keypair k (entropy w) = (Raise e, e') →
  EscrowApi._ensure_keypair_exists u k w = (Raise e, World (key_storage w) e').
Proof.
  intros H G. unfold EscrowApi._ensure_keypair_exists. unfold_call. simpl.
  rewrite H. simpl. by rewrite G.
Qed.

(** The guards and the provisioning step of [decrypt_with_private_key]
    taken apart from what follows them. *)
Lemma decrypt_after_ensure u k a cd (w : world S) :
  str_upper k = "RSA" → str_upper a = "RSA_OAEP" →
  EscrowApi.decrypt_with_private_key u k a cd w =
    match EscrowApi._ensure_keypair_exists u k w with
    | (Ok _, w1) =>
        match
          load_asymmetric_key_from_pem_bytestring
            (KeyStorageBase.get_private_key u k (key_storage w1)) k
        with
        | Ok priv => (_decrypt_via_rsa_oaep cd priv, w1)
        | Raise e => (Raise e, w1)
        end
    | (Raise e, w1) => (Raise e, w1)
    end.
Proof.
  intros Hk Ha. unfold EscrowApi.decrypt_with_private_key. unfold_call.
  rewrite Hk, Ha. simpl.
  destruct (EscrowApi._ensure_keypair_exists u k w) as [[[]|e] w1]; [|done].
  simpl.
  destruct (load_asymmetric_key_from_pem_bytestring _ k) as [priv|e]; [|done].
  by destruct (_decrypt_via_rsa_oaep cd priv).
Qed.

Lemma sign_after_ensure u m k a (w : world S) :
  EscrowApi.get_message_signature u m k a w =
    match EscrowApi._ensure_keypair_exists u k w with
    | (Ok _, w1) =>
        match
          load_asymmetric_key_from_pem_bytestring
            (KeyStorageBase.get_private_key u k (key_storage w1)) k
        with
        | Ok priv =>
            match sign a priv m (entropy w1) with
            | (Ok d, e') => (Ok {| digest := d |}, World (key_storage w1) e')
            | (Raise e, e') => (Raise e, World (key_storage w1) e')
            end
        | Raise e => (Raise e, w1)
        end
    | (Raise e, w1) => (Raise e, w1)
    end.
Proof.
  unfold EscrowApi.get_message_signature, sign_message. unfold_call.
  destruct (EscrowApi._ensure_keypair_exists u k w) as [[[]|e] w1]; [|done].
  simpl.
  destruct (load_asymmetric_key_from_pem_bytestring _ k) as [priv|e]; [|done].
  by destruct (sign a priv m (entropy w1)) as [[d|e] e'].
Qed.

(** X2.  A failed key generation stores nothing: on any storage backend,
    when the storage has no non-empty public key for the pair and key
    generation raises, each API call raises that same exception
    ([decrypt_with_private_key] once its guards pass) and the storage is
    the one before the call. *)
Theorem generation_failure_stores_nothing u k (w : world S) e e' :
  truthy (KeyStorageBase.get_public_key u k (key_storage w)) = false →
  generate_asymmetric_keypair k (entropy w) = (Raise e, e') →
  EscrowApi.get_public_key u k w = (Raise e, World (key_storage w) e') ∧
  (∀ m a, EscrowApi.get_message_signature u m k a w
          = (Raise e, World (key_storage w) e')) ∧
  (∀ a cd, str_upper k = "RSA" → str_upper a = "RSA_OAEP" →
           EscrowApi.decrypt_with_private_key u k a cd w
           = (Raise e, World (key_storage w) e')).
Proof.
  intros H G. pose proof (ensure_generation_raises u k w e e' H G) as E.
  split; [|split].
  - unfold EscrowApi.get_public_key. unfold_call. by rewrite E.
  - intros m a. by rewrite sign_after_ensure, E.
  - intros a cd Hk Ha. by rewrite (decrypt_after_ensure _ _ _ _ _ Hk Ha), E.
Qed.

End AnyStorage.

Lemma generation_failure_stores_nothing_witness :
  let w := World DummyKeyStorage.__init__ 7 in
  let e := ValueError "Unknown asymmetric key type" in
  truthy (KeyStorageBase.get_public_key "u" "DSA" (key_storage w)) = false ∧
  generate_asymmetric_keypair (Backend:=Toy.backend) "DSA" (entropy w)
    = (Raise e, 7%N) ∧
  EscrowApi.get_public_key (B:=Toy.backend) "u" "DSA" w
    = (Raise e, World (key_storage w) 7) ∧
  (∀ m a, EscrowApi.get_message_signature (B:=Toy.backend) "u" m "DSA" a w
          = (Raise e, World (key_storage w) 7)) ∧
  (∀ a cd, str_upper (B:=Toy.backend) "DSA" = "RSA" → str_upper (B:=Toy.backend) a = "RSA_OAEP" →
           EscrowApi.decrypt_with_private_key (B:=Toy.backend) "u" "DSA" a cd w
           = (Raise e, World (key_storage w) 7)).
Proof.
  intros w e. split; [reflexivity|]. split; [reflexivity|].
  apply (generation_failure_stores_nothing (B:=Toy.backend) "u" "DSA" w e 7%N);
    reflexivity.
Defined.

(** ** On the dummy storage *)

Section OnDummyStorage.
Context {B : Backend}.

Local Notation "'lookup' u k w" :=
  (DummyKeyStorage._get_keypair u k (key_storage w))
  (at level 10, u, k, w at level 9, only parsing).

Lemma set_keys_frame u k pub priv (self : DummyKeyStorage.t) u' k' :
  (u, k) ≠ (u', k') →
  DummyKeyStorage._get_keypair u' k'
    (snd (DummyKeyStorage.set_keys u k pub priv self))
  = DummyKeyStorage._get_keypair u' k' self.
Proof.
  intros Hne. unfold DummyKeyStorage.set_keys.
  destruct (dict_truthy _); [done|]. simpl.
  unfold DummyKeyStorage._get_keypair. simpl. by rewrite lookup_insert_ne.
Qed.

Lemma ensure_frame u k (w : world DummyKeyStorage.t) u' k' :
  (u, k) ≠ (u', k') →
  lookup u' k' (snd (EscrowApi._ensure_keypair_exists u k w)) = lookup u' k' w.
Proof.
  intros Hne. destruct (lookup u k w) as [old|] eqn:E.
  - destruct (public_key old) as [|x l] eqn:Ep.
    + rewrite (ensure_empty_public_key _ _ _ _ E Ep).
      by destruct (generate_asymmetric_keypair k (entropy w)) as [[?|?] ?].
    + rewrite (ensure_present _ _ _ _ E); [done|]. by rewrite Ep.
  - rewrite (ensure_absent _ _ _ E).
    destruct (generate_asymmetric_keypair k (entropy w)) as [[?|?] ?]; [|done].
    simpl. unfold DummyKeyStorage._get_keypair. simpl.
    by rewrite lookup_insert_ne.
Qed.

Lemma perform_frame (r : request) (w : world DummyKeyStorage.t) u' k' :
  request_pair r ≠ (u', k') →
  lookup u' k' (perform r w) = lookup u' k' w.
Proof.
  intros Hne.
  destruct r as [u k pub priv|u k|u k|u k|u m k a|u k a cd]; simpl in *.
  - unfold storage_call.
    pose proof (set_keys_frame u k pub priv (key_storage w) u' k' Hne) as Hf.
    by destruct (DummyKeyStorage.set_keys u k pub priv (key_storage w)).
  - done.
  - done.
  - rewrite get_public_key_steps.
    pose proof (ensure_frame u k w u' k' Hne) as Hf.
    by destruct (EscrowApi._ensure_keypair_exists u k w) as [[[]|e] w1].
  - rewrite get_message_signature_steps.
    pose proof (ensure_frame u k w u' k' Hne) as Hf.
    destruct (EscrowApi._ensure_keypair_exists u k w) as [[[]|e] w1]; [|done].
    simpl in Hf.
    destruct (load_asymmetric_key_from_pem_bytestring _ k) as [priv|e]; [|done].
    by destruct (sign a priv m (entropy w1)) as [[d|e] e'].
  - rewrite decrypt_with_private_key_steps.
    pose proof (ensure_frame u k w u' k' Hne) as Hf.
    destruct (_ && _); [|done].
    destruct (EscrowApi._ensure_keypair_exists u k w) as [[[]|e] w1]; [|done].
    simpl in Hf.
    by destruct (load_asymmetric_key_from_pem_bytestring _ k) as [priv|e].
Qed.

(** X3.  Requests about other pairs leave a pair alone: after any sequence
    of storage and API requests none of which names [(uid, key_type)], the
    storage holds for that pair exactly what it held before; in particular a
    pair that was absent is still absent, and key types that differ only in
    letter case are different pairs. *)
Theorem requests_for_other_pairs_frame (rs : list request)
    (w : world DummyKeyStorage.t) u' k' :
  Forall (λ r, request_pair r ≠ (u', k')) rs →
  DummyKeyStorage.get_public_key u' k' (key_storage (perform_all rs w))
    = DummyKeyStorage.get_public_key u' k' (key_storage w) ∧
  DummyKeyStorage.get_private_key u' k' (key_storage (perform_all rs w))
    = DummyKeyStorage.get_private_key u' k' (key_storage w).
Proof.
  intros Hrs. rewrite !get_public_key_lookup, !get_private_key_lookup.
  enough (lookup u' k' (perform_all rs w) = lookup u' k' w) as -> by done.
  revert w. induction Hrs as [|r rs Hr _ IH]; intros w; [done|].
  simpl. rewrite IH. by apply perform_frame.
Qed.

(** X4.  Signing and decrypting provision too, and keep what they
    provisioned: when the storage holds no key pair for the pair and key
    generation returns one, [get_message_signature] and (once its guards
    pass) [decrypt_with_private_key] store that key pair, whether the call
    then returns or raises; a decryption that fails on its cipherdict has
    still created the key pair. *)
Theorem signing_and_decrypting_provision u k (w : world DummyKeyStorage.t)
    kp e' :
  lookup u k w = None →
  generate_asymmetric_keypair k (entropy w) = (Ok kp, e') →
  let stored :=
    {| DummyKeyStorage._cached_keypairs :=
         <[(u, k) := kp]> (DummyKeyStorage._cached_keypairs (key_storage w)) |} in
  (∀ m a,
     key_storage (snd (EscrowApi.get_message_signature u m k a w)) = stored) ∧
  (∀ a cd, str_upper k = "RSA" → str_upper a = "RSA_OAEP" →
     snd (EscrowApi.decrypt_with_private_key u k a cd w) = World stored e').
Proof.
  intros H G stored.
  assert (EscrowApi._ensure_keypair_exists u k w = (Ok tt, World stored e'))
    as E by (by rewrite (ensure_absent _ _ _ H), G).
  split.
  - intros m a. rewrite get_message_signature_steps, E.
    destruct (load_asymmetric_key_from_pem_bytestring _ k) as [priv|e]; [|done].
    by destruct (sign a priv m _) as [[d|e] e''].
  - intros a cd Hk Ha. rewrite decrypt_with_private_key_steps, Hk, Ha, E.
    simpl.
    by destruct (load_asymmetric_key_from_pem_bytestring _ k) as [priv|e].
Qed.

End OnDummyStorage.

Lemma requests_for_other_pairs_frame_witness :
  let rs := [Api_get_public_key "u" "rsa";
             KS_set_keys "v" "RSA" (b "public") (b "private");
             Api_decrypt_with_private_key "u" "rsa" "rsa_oaep"
               {| digest_list := [] |}] in
  let w := World DummyKeyStorage.__init__ 7 in
  Forall (λ r, request_pair r ≠ ("u", "RSA")) rs ∧
  DummyKeyStorage.get_public_key "u" "RSA"
    (key_storage (perform_all (B:=Toy.backend) rs w))
    = DummyKeyStorage.get_public_key "u" "RSA" (key_storage w) ∧
  DummyKeyStorage.get_private_key "u" "RSA"
    (key_storage (perform_all (B:=Toy.backend) rs w))
    = DummyKeyStorage.get_private_key "u" "RSA" (key_storage w).
Proof.
  intros rs w.
  assert (Forall (λ r, request_pair r ≠ ("u", "RSA")) rs) as H
    by (repeat constructor; discriminate).
  split; [exact H|].
  exact (requests_for_other_pairs_frame (B:=Toy.backend) rs w "u" "RSA" H).
Defined.

Lemma signing_and_decrypting_provision_witness :
  let w := World DummyKeyStorage.__init__ 7 in
  let kp := {| public_key := [x50; x07]; private_key := [x53; x07] |} in
  let stored :=
    {| DummyKeyStorage._cached_keypairs :=
         <[("u", "RSA") := kp]>
           (DummyKeyStorage._cached_keypairs (key_storage w)) |} in
  DummyKeyStorage._get_keypair "u" "RSA" (key_storage w) = None ∧
  generate_asymmetric_keypair (Backend:=Toy.backend) "RSA" (entropy w)
    = (Ok kp, 8%N) ∧
  (∀ m a,
     key_storage
       (snd (EscrowApi.get_message_signature (B:=Toy.backend) "u" m "RSA" a w))
     = stored) ∧
  (∀ a cd, str_upper (B:=Toy.backend) "RSA" = "RSA" → str_upper (B:=Toy.backend) a = "RSA_OAEP" →
     snd (EscrowApi.decrypt_with_private_key (B:=Toy.backend) "u" "RSA" a cd w)
     = World stored 8).
Proof.
  intros w kp stored. split; [reflexivity|]. split; [reflexivity|].
  apply (signing_and_decrypting_provision (B:=Toy.backend) "u" "RSA" w kp 8%N);
    reflexivity.
Defined.

(** ** Histories made through the API alone *)

Section ApiAlone.
Context {B : Backend} {L : BackendLaws B}.

Local Notation "'lookup' u k w" :=
  (DummyKeyStorage._get_keypair u k (key_storage w))
  (at level 10, u, k, w at level 9, only parsing).

Lemma ensure_keeps_good u k (w : world DummyKeyStorage.t) :
  good_storage (key_storage w) →
  good_storage (key_storage (snd (EscrowApi._ensure_keypair_exists u k w))).
Proof.
  intros Hgood u' k' kp' Hkp'.
  destruct (decide ((u, k) = (u', k'))) as [Heq|Hne].
  - injection Heq as <- <-.
    destruct (lookup u k w) as [old|] eqn:Ew.
    + rewrite (ensure_keeps u k w u k old Ew) in Hkp'.
      injection Hkp' as <-. by apply (Hgood u k).
    + rewrite (ensure_absent _ _ _ Ew) in Hkp'.
      destruct (generate_asymmetric_keypair k (entropy w)) as [[kp|x] e'] eqn:G.
      * simpl in Hkp'. unfold DummyKeyStorage._get_keypair in Hkp'.
        simpl in Hkp'. rewrite lookup_insert_eq in Hkp'.
        injection Hkp' as <-. by eapply keygen_good.
      * simpl in Hkp'. congruence.
  - rewrite (ensure_frame u k w u' k' Hne) in Hkp'. by apply (Hgood u' k').
Qed.

Lemma api_request_keeps_good (r : request) (w : world DummyKeyStorage.t) :
  is_api_request r = true →
  good_storage (key_storage w) →
  good_storage (key_storage (perform r w)).
Proof.
  intros Hr Hgood.
  destruct r as [u k pub priv|u k|u k|u k|u m k a|u k a cd]; simpl in *;
    try done.
  - rewrite get_public_key_steps.
    pose proof (ensure_keeps_good u k w Hgood) as Hk.
    by destruct (EscrowApi._ensure_keypair_exists u k w) as [[[]|e] w1].
  - rewrite get_message_signature_steps.
    pose proof (ensure_keeps_good u k w Hgood) as Hk.
    destruct (EscrowApi._ensure_keypair_exists u k w) as [[[]|e] w1]; [|done].
    simpl in Hk.
    destruct (load_asymmetric_key_from_pem_bytestring _ k) as [priv|e]; [|done].
    by destruct (sign a priv m (entropy w1)) as [[d|e] e'].
  - rewrite decrypt_with_private_key_steps.
    pose proof (ensure_keeps_good u k w Hgood) as Hk.
    destruct (_ && _); [|done].
    destruct (EscrowApi._ensure_keypair_exists u k w) as [[[]|e] w1]; [|done].
    simpl in Hk.
    by destruct (load_asymmetric_key_from_pem_bytestring _ k) as [priv|e].
Qed.

Lemma api_requests_keep_good (rs : list request) (w : world DummyKeyStorage.t) :
  Forall (λ r, is_api_request r = true) rs →
  good_storage (key_storage w) →
  good_storage (key_storage (perform_all rs w)).
Proof.
  intros Hrs. revert w. induction Hrs as [|r rs Hr _ IH]; intros w Hgood; [done|].
  simpl. apply IH. by apply api_request_keeps_good.
Qed.

Lemma new_storage_good : good_storage DummyKeyStorage.__init__.
Proof.
  intros u k kp H. unfold DummyKeyStorage._get_keypair in H. simpl in H.
  by rewrite lookup_empty in H.
Qed.

(** X5.  A storage filled through the API alone holds only generated key
    pairs: after any sequence of API requests on a new storage, every stored
    key pair is a good one for its key type (a non-empty PEM pair whose
    halves load and belong together), given that key generation returns
    such pairs. *)
Theorem api_alone_stores_good_keypairs (rs : list request) (e0 : N) u k kp :
  Forall (λ r, is_api_request r = true) rs →
  lookup u k (perform_all rs (World DummyKeyStorage.__init__ e0)) = Some kp →
  good_keypair k kp.
Proof.
  intros Hrs.
  by apply (api_requests_keep_good rs (World DummyKeyStorage.__init__ e0) Hrs
              new_storage_good).
Qed.

(** X6.  Through the API alone the storage never refuses a key pair: after
    any sequence of API requests on a new storage, [get_public_key] either
    returns a non-empty public key, or raises the exception that key
    generation raised; it never raises the already-existing error of
    [set_keys]. *)
Theorem api_alone_never_refused (rs : list request) (e0 : N) u k :
  Forall (λ r, is_api_request r = true) rs →
  let w := perform_all rs (World DummyKeyStorage.__init__ e0) in
  match EscrowApi.get_public_key u k w with
  | (Ok r, _) => ∃ pem, r = Some pem ∧ pem ≠ []
  | (Raise e, w1) =>
      ∃ e', generate_asymmetric_keypair k (entropy w) = (Raise e, e') ∧
            w1 = World (key_storage w) e'
  end.
Proof.
  intros Hrs w.
  pose proof (api_requests_keep_good rs (World DummyKeyStorage.__init__ e0) Hrs
                new_storage_good) as Hgood.
  fold w in Hgood. rewrite get_public_key_steps.
  destruct (EscrowApi._ensure_keypair_exists u k w) as [[[]|e] w1] eqn:E.
  - destruct (ensure_ok_good u k w w1 (λ kp, Hgood u k kp) E)
      as (kp & Hkp & Hne & _).
    rewrite Hkp. by exists (public_key kp).
  - destruct (lookup u k w) as [old|] eqn:Ew.
    + destruct (Hgood u k old Ew) as [Hne _].
      rewrite (ensure_present _ _ _ _ Ew Hne) in E. done.
    + rewrite (ensure_absent _ _ _ Ew) in E.
      destruct (generate_asymmetric_keypair k (entropy w)) as [[?|x] e'];
        simplify_eq.
      by exists e'.
Qed.

End ApiAlone.

Lemma api_alone_stores_good_keypairs_witness :
  let rs := [Api_decrypt_with_private_key "u" "RSA" "RSA_OAEP"
               {| digest_list := [b "aaabbbccc"] |};
             Api_get_public_key "v" "rsa"] in
  let kp := {| public_key := [x50; x07]; private_key := [x53; x07] |} in
  Forall (λ r, is_api_request r = true) rs ∧
  DummyKeyStorage._get_keypair "u" "RSA"
    (key_storage
       (perform_all (B:=Toy.backend) rs (World DummyKeyStorage.__init__ 7)))
    = Some kp ∧
  good_keypair (B:=Toy.backend) "RSA" kp.
Proof.
  intros rs kp.
  assert (Forall (λ r, is_api_request r = true) rs) as H
    by (repeat constructor).
  split; [exact H|]. split; [reflexivity|].
  apply (api_alone_stores_good_keypairs (B:=Toy.backend) (L:=toy_laws)
           rs 7%N "u" "RSA" kp H).
  reflexivity.
Defined.

Lemma api_alone_never_refused_witness :
  let rs := [Api_decrypt_with_private_key "u" "RSA" "RSA_OAEP"
               {| digest_list := [b "aaabbbccc"] |};
             Api_get_message_signature "u" (b "m") "RSA" "PSS"] in
  let w := perform_all (B:=Toy.backend) rs (World DummyKeyStorage.__init__ 7) in
  Forall (λ r, is_api_request r = true) rs ∧
  match EscrowApi.get_public_key (B:=Toy.backend) "u" "RSA" w with
  | (Ok r, _) => ∃ pem, r = Some pem ∧ pem ≠ []
  | (Raise e, w1) =>
      ∃ e', generate_asymmetric_keypair (Backend:=Toy.backend) "RSA" (entropy w)
              = (Raise e, e') ∧
            w1 = World (key_storage w) e'
  end.
Proof.
  intros rs w.
  assert (Forall (λ r, is_api_request r = true) rs) as H
    by (repeat constructor).
  split; [exact H|].
  exact (api_alone_never_refused (B:=Toy.backend) (L:=toy_laws)
           rs 7%N "u" "RSA" H).
Defined.

(** * Properties of the authentication devices *)

Lemma call_bind_ok {St A C} (m : call St A) (f : A → call St C) s c s' :
  (m ≫= f) s = (Ok c, s') →
  ∃ a s1, m s = (Ok a, s1) ∧ f a s1 = (Ok c, s').
Proof.
  unfold mbind, call_mbind, call_bind. destruct (m s) as [[a|e] s1]; [|done].
  intros H. by exists a, s1.
Qed.

Lemma call_ret_ok {St A} (a c : A) (s s' : St) :
  (mret a : call St A) s = (Ok c, s') → c = a ∧ s' = s.
Proof. unfold mret, call_mret, call_ret. by intros [= -> ->]. Qed.

Section DeviceProperties.
Context {P : AuthenticationDevice.Platform}.

Local Notation "'Dev'" :=
  (AuthenticationDevice.Device AuthenticationDevice.Metadata).

(** X7.  A device is initialised once: for a device not marked initialised
    on which [initialize_authenticator] returns metadata, the call marks the
    device initialised and attaches exactly that metadata, leaving its other
    entries as they were; any further initialisation of the device it
    returns raises [AssertionError] before [initialize_authenticator] is
    called, so the machine is untouched. *)
Theorem initialize_authentication_device_once (d : Dev) user extra s m s' :
  AuthenticationDevice.is_initialized d = false →
  AuthenticationDevice.initialize_authenticator
    (AuthenticationDevice._get_authenticator_path d) user extra s = (Ok m, s') →
  ∃ d',
    AuthenticationDevice.initialize_authentication_device d user extra s
      = (Ok d', s') ∧
    AuthenticationDevice.is_initialized d' = true ∧
    AuthenticationDevice.metadata d' = Some (Some m) ∧
    (AuthenticationDevice.drive_type d', AuthenticationDevice.label d',
     AuthenticationDevice.path d', AuthenticationDevice.size d',
     AuthenticationDevice.format d', AuthenticationDevice.partition d')
    = (AuthenticationDevice.drive_type d, AuthenticationDevice.label d,
       AuthenticationDevice.path d, AuthenticationDevice.size d,
       AuthenticationDevice.format d, AuthenticationDevice.partition d) ∧
    ∀ user2 extra2 s2,
      AuthenticationDevice.initialize_authentication_device d' user2 extra2 s2
      = (Raise AssertionError, s2).
Proof.
  intros Hd Hinit. exists (AuthenticationDevice.mark_initialized d m).
  split; [|by repeat split].
  unfold AuthenticationDevice.initialize_authentication_device. unfold_call.
  rewrite Hd. simpl. by rewrite Hinit.
Qed.

Lemma attach_metadata_ok (ds : list Dev) s ds' s' :
  AuthenticationDevice.attach_metadata ds s = (Ok ds', s') →
  Forall2
    (λ d d',
       ∃ m, d' = AuthenticationDevice.set_metadata d m ∧
            (AuthenticationDevice.is_initialized d = false → m = None) ∧
            (AuthenticationDevice.is_initialized d = true → is_Some m))
    ds ds'.
Proof.
  revert s ds' s'. induction ds as [|d ds IH]; intros s ds' s' H; simpl in H.
  - apply call_ret_ok in H as [-> _]. constructor.
  - apply call_bind_ok in H as (m & s1 & Hm & H).
    apply call_bind_ok in H as (rest & s2 & Hrest & H).
    apply call_ret_ok in H as [-> _].
    constructor; [|by eapply IH].
    exists m. split; [done|].
    destruct (AuthenticationDevice.is_initialized d).
    + apply call_bind_ok in Hm as (x & s3 & _ & Hm).
      apply call_ret_ok in Hm as [-> _]. by split.
    + apply call_ret_ok in Hm as [-> _]. by split.
Qed.

Lemma attach_metadata_cons (d : Dev) (ds : list Dev) s :
  AuthenticationDevice.attach_metadata (d :: ds) s =
    match
      (if AuthenticationDevice.is_initialized d
       then
         match AuthenticationDevice.load_authentication_device_metadata d s with
         | (Ok m, s1) => (Ok (Some m), s1)
         | (Raise e, s1) => (Raise e, s1)
         end
       else (Ok None, s))
    with
    | (Ok m, s1) =>
        match AuthenticationDevice.attach_metadata ds s1 with
        | (Ok ds', s2) => (Ok (AuthenticationDevice.set_metadata d m :: ds'), s2)
        | (Raise e, s2) => (Raise e, s2)
        end
    | (Raise e, s1) => (Raise e, s1)
    end.
Proof.
  simpl. unfold_call. destruct (AuthenticationDevice.is_initialized d).
  - destruct (AuthenticationDevice.load_authentication_device_metadata d s)
      as [[m|e] s1]; [|done].
    by destruct (AuthenticationDevice.attach_metadata ds s1) as [[?|?] ?].
  - by destruct (AuthenticationDevice.attach_metadata ds s) as [[?|?] ?].
Qed.

Lemma attach_metadata_app (ds1 ds2 : list Dev) s :
  AuthenticationDevice.attach_metadata (ds1 ++ ds2) s =
    match AuthenticationDevice.attach_metadata ds1 s with
    | (Ok ds1', s1) =>
        match AuthenticationDevice.attach_metadata ds2 s1 with
        | (Ok ds2', s2) => (Ok (ds1' ++ ds2')%list, s2)
        | (Raise e, s2) => (Raise e, s2)
        end
    | (Raise e, s1) => (Raise e, s1)
    end.
Proof.
  revert s. induction ds1 as [|d ds1 IH]; intros s.
  - simpl. unfold_call.
    by destruct (AuthenticationDevice.attach_metadata ds2 s) as [[?|?] ?].
  - rewrite <- app_comm_cons, !attach_metadata_cons.
    match goal with
    | |- context [ if ?c then ?x else ?y ] =>
        destruct (if c then x else y) as [[m|e] s1]; [|done]
    end.
    rewrite IH.
    destruct (AuthenticationDevice.attach_metadata ds1 s1) as [[ds1'|e] s2];
      [|done].
    by destruct (AuthenticationDevice.attach_metadata ds2 s2) as [[ds2'|e] s3].
Qed.

(** X8.  What the listing attaches: when
    [list_available_authentication_devices] returns, it returns as many
    devices as the platform's enumeration listed, and at the position of
    each enumerated device stands that device with only its ["metadata"]
    entry set: to [None] when the device is not marked initialised, and
    otherwise to the metadata that [load_authentication_device_metadata]
    returned for that very device, on the machine as the handling of the
    devices before it left it. *)
Theorem list_available_attaches_metadata s (before after : list Dev)
    (d : Dev) s1 ds' s' :
  (if String.eqb AuthenticationDevice.sys_platform "win32"
   then AuthenticationDevice._list_available_authentication_devices_win32
   else AuthenticationDevice._list_available_authentication_devices_linux) s
    = (Ok (before ++ d :: after)%list, s1) →
  AuthenticationDevice.list_available_authentication_devices s = (Ok ds', s') →
  length ds' = length (before ++ d :: after)%list ∧
  ∃ before' s2,
    AuthenticationDevice.attach_metadata before s1 = (Ok before', s2) ∧
    take (length before) ds' = before' ∧
    if AuthenticationDevice.is_initialized d
    then
      ∃ m s3,
        AuthenticationDevice.load_authentication_device_metadata d s2
          = (Ok m, s3) ∧
        ds' !! length before
          = Some (AuthenticationDevice.set_metadata d (Some m))
    else
      ds' !! length before = Some (AuthenticationDevice.set_metadata d None).
Proof.
  intros Henum H.
  unfold AuthenticationDevice.list_available_authentication_devices in H.
  apply call_bind_ok in H as (ds0 & s0 & Henum' & H).
  rewrite Henum in Henum'. injection Henum' as <- <-.
  split.
  { symmetry. eapply Forall2_length, attach_metadata_ok, H. }
  rewrite attach_metadata_app in H.
  destruct (AuthenticationDevice.attach_metadata before s1)
    as [[before'|e] s2] eqn:Hbefore; [|done].
  pose proof (Forall2_length _ _ _ (attach_metadata_ok _ _ _ _ Hbefore)) as Hlen.
  exists before', s2. split; [done|].
  rewrite attach_metadata_cons in H.
  destruct (AuthenticationDevice.is_initialized d).
  - destruct (AuthenticationDevice.load_authentication_device_metadata d s2)
      as [[m|e] s3] eqn:Hload; [|done].
    destruct (AuthenticationDevice.attach_metadata after s3)
      as [[after'|e] s4]; [|done].
    injection H as <- <-. rewrite Hlen. split; [by rewrite take_app_length|].
    exists m, s3. split; [done|]. by rewrite list_lookup_middle.
  - destruct (AuthenticationDevice.attach_metadata after s2)
      as [[after'|e] s4]; [|done].
    injection H as <- <-. rewrite Hlen. split; [by rewrite take_app_length|].
    by rewrite list_lookup_middle.
Qed.

(** X9.  One unreadable device fails the whole listing: when the metadata
    of an initialised device of the enumeration cannot be loaded, while the
    devices before it were handled, the listing raises that exception, and
    no list, not even of the devices before, is returned. *)
Theorem list_available_fails_as_a_whole s (before after : list Dev)
    (d : Dev) s1 before' s2 e s3 :
  (if String.eqb AuthenticationDevice.sys_platform "win32"
   then AuthenticationDevice._list_available_authentication_devices_win32
   else AuthenticationDevice._list_available_authentication_devices_linux) s
    = (Ok (before ++ d :: after)%list, s1) →
  AuthenticationDevice.attach_metadata before s1 = (Ok before', s2) →
  AuthenticationDevice.is_initialized d = true →
  AuthenticationDevice.load_authentication_device_metadata d s2 = (Raise e, s3) →
  AuthenticationDevice.list_available_authentication_devices s = (Raise e, s3).
Proof.
  intros Henum Hbefore Hd Hload.
  unfold AuthenticationDevice.list_available_authentication_devices.
  unfold mbind, call_mbind, call_bind. rewrite Henum.
  rewrite attach_metadata_app, Hbefore, attach_metadata_cons, Hd.
  by rewrite Hload.
Qed.

End DeviceProperties.

Section LinuxListing.
Context {P : AuthenticationDevice.Platform}.

Local Notation "'Dev'" :=
  (AuthenticationDevice.Device AuthenticationDevice.Metadata).

(** What identifies a listed device, and the same for a mounted partition. *)
Local Notation "'entries_of' d" :=
  (AuthenticationDevice.partition d, AuthenticationDevice.path d,
   AuthenticationDevice.label d, AuthenticationDevice.format d,
   AuthenticationDevice.drive_type d)
  (at level 10, d at level 9, only parsing).

Local Notation "'entries_for' p" :=
  (Some (AuthenticationDevice.device p), AuthenticationDevice.mountpoint p,
   AuthenticationDevice.purepath_name (AuthenticationDevice.mountpoint p),
   AuthenticationDevice.fstype p, "USBSTOR")
  (at level 10, p at level 9, only parsing).




End LinuxListing.

(** ** The small machine *)

Lemma initialize_authentication_device_once_witness :
  let d : AuthenticationDevice.Device string :=
    {| AuthenticationDevice.drive_type := "USBSTOR";
       AuthenticationDevice.label := "/media/key";
       AuthenticationDevice.path := "/media/key";
       AuthenticationDevice.size := 1024;
       AuthenticationDevice.format := "vfat";
       AuthenticationDevice.partition := Some "/dev/sdb1";
       AuthenticationDevice.is_initialized := false;
       AuthenticationDevice.metadata := Some None |} in
  AuthenticationDevice.is_initialized d = false ∧
  ∃ d',
    AuthenticationDevice.initialize_authentication_device
      (P:=AuthenticationDevice.toy_platform) d "alice" None []
      = (Ok d', ["/media/key"]) ∧
    AuthenticationDevice.is_initialized d' = true ∧
    AuthenticationDevice.metadata d' = Some (Some "alice") ∧
    (AuthenticationDevice.drive_type d', AuthenticationDevice.label d',
     AuthenticationDevice.path d', AuthenticationDevice.size d',
     AuthenticationDevice.format d', AuthenticationDevice.partition d')
    = (AuthenticationDevice.drive_type d, AuthenticationDevice.label d,
       AuthenticationDevice.path d, AuthenticationDevice.size d,
       AuthenticationDevice.format d, AuthenticationDevice.partition d) ∧
    ∀ user2 extra2 s2,
      AuthenticationDevice.initialize_authentication_device
        (P:=AuthenticationDevice.toy_platform) d' user2 extra2 s2
      = (Raise AssertionError, s2).
Proof.
  intros d. split; [reflexivity|].
  apply (initialize_authentication_device_once
           (P:=AuthenticationDevice.toy_platform) d "alice" None []
           "alice" ["/media/key"]);
    reflexivity.
Defined.

Lemma list_available_fails_as_a_whole_witness :
  let key m : AuthenticationDevice.Device string :=
    {| AuthenticationDevice.drive_type := "USBSTOR";
       AuthenticationDevice.label := "/media/key";
       AuthenticationDevice.path := "/media/key";
       AuthenticationDevice.size := 1024;
       AuthenticationDevice.format := "vfat";
       AuthenticationDevice.partition := Some "/dev/sdb1";
       AuthenticationDevice.is_initialized := true;
       AuthenticationDevice.metadata := m |} in
  let broken : AuthenticationDevice.Device string :=
    {| AuthenticationDevice.drive_type := "USBSTOR";
       AuthenticationDevice.label := "/media/broken";
       AuthenticationDevice.path := "/media/broken";
       AuthenticationDevice.size := 1024;
       AuthenticationDevice.format := "vfat";
       AuthenticationDevice.partition := Some "/dev/sdb2";
       AuthenticationDevice.is_initialized := true;
       AuthenticationDevice.metadata := None |} in
  let s := ["/media/key"; "/media/broken"] in
  let e := ValueError "Abnormal key device metadata" in
  AuthenticationDevice._list_available_authentication_devices_linux
    (P:=AuthenticationDevice.toy_platform) s
    = (Ok ([key None] ++ broken :: [])%list, s) ∧
  AuthenticationDevice.attach_metadata (P:=AuthenticationDevice.toy_platform)
    [key None] s = (Ok [key (Some (Some "/media/key"))], s) ∧
  AuthenticationDevice.load_authentication_device_metadata
    (P:=AuthenticationDevice.toy_platform) broken s = (Raise e, s) ∧
  AuthenticationDevice.list_available_authentication_devices
    (P:=AuthenticationDevice.toy_platform) s = (Raise e, s).
Proof.
  intros key broken s e.
  split; [reflexivity|]. split; [reflexivity|]. split; [reflexivity|].
  apply (list_available_fails_as_a_whole
           (P:=AuthenticationDevice.toy_platform) s [key None] [] broken s
           [key (Some (Some "/media/key"))] s e s);
    reflexivity.
Defined.

Lemma list_available_attaches_metadata_witness :
  let key m : AuthenticationDevice.Device string :=
    {| AuthenticationDevice.drive_type := "USBSTOR";
       AuthenticationDevice.label := "/media/key";
       AuthenticationDevice.path := "/media/key";
       AuthenticationDevice.size := 1024;
       AuthenticationDevice.format := "vfat";
       AuthenticationDevice.partition := Some "/dev/sdb1";
       AuthenticationDevice.is_initialized := true;
       AuthenticationDevice.metadata := m |} in
  let broken m : AuthenticationDevice.Device string :=
    {| AuthenticationDevice.drive_type := "USBSTOR";
       AuthenticationDevice.label := "/media/broken";
       AuthenticationDevice.path := "/media/broken";
       AuthenticationDevice.size := 1024;
       AuthenticationDevice.format := "vfat";
       AuthenticationDevice.partition := Some "/dev/sdb2";
       AuthenticationDevice.is_initialized := false;
       AuthenticationDevice.metadata := m |} in
  let s := ["/media/key"] in
  let ds' := [key (Some (Some "/media/key")); broken (Some None)] in
  AuthenticationDevice._list_available_authentication_devices_linux
    (P:=AuthenticationDevice.toy_platform) s
    = (Ok ([] ++ key None :: [broken None])%list, s) ∧
  AuthenticationDevice.list_available_authentication_devices
    (P:=AuthenticationDevice.toy_platform) s = (Ok ds', s) ∧
  length ds' = length ([] ++ key None :: [broken None])%list ∧
  ∃ before' s2,
    AuthenticationDevice.attach_metadata (P:=AuthenticationDevice.toy_platform)
      [] s = (Ok before', s2) ∧
    take (length (@nil (AuthenticationDevice.Device string))) ds' = before' ∧
    ∃ m s3,
      AuthenticationDevice.load_authentication_device_metadata
        (P:=AuthenticationDevice.toy_platform) (key None) s2 = (Ok m, s3) ∧
      ds' !! length (@nil (AuthenticationDevice.Device string))
        = Some (AuthenticationDevice.set_metadata
                  (P:=AuthenticationDevice.toy_platform) (key None) (Some m)).
Proof.
  intros key broken s ds'.
  split; [reflexivity|]. split; [reflexivity|].
  apply (list_available_attaches_metadata
           (P:=AuthenticationDevice.toy_platform) s [] [broken None] (key None)
           s ds' s);
    reflexivity.
Defined.

